(** * kungpao.detection: kernel selection, background estimation, detection

    A shallow embedding of [src/kungpao/detection.py].  Python floats are
    IEEE binary64 values, modelled by Rocq's primitive floats; Python
    exceptions are values of a sum type; the caller-owned image arrays live
    in a store indexed by references, so that the in-place subtraction of
    the background is visible. *)

From Stdlib Require Import ZArith QArith Qabs Lia Bool.
From Stdlib Require Import Uint63 Floats.
From stdpp Require Import gmap strings list.

Set Warnings "-inexact-float".
Local Open Scope Z_scope.

(** ** Classes of binary64 values *)

Definition is_nan_sf (x : spec_float) : bool :=
  match x with S754_nan => true | _ => false end.

(** [x] is a number: any float but NaN. *)
Definition is_number (x : float) : bool := negb (is_nan_sf (Prim2SF x)).

(** A finite float that is not zero. *)
Definition is_finite_nonzero (x : float) : bool :=
  match Prim2SF x with S754_finite _ _ _ => true | _ => false end.

(** The rational a finite float denotes. *)
Definition Q_of_float (x : float) : option Q :=
  match Prim2SF x with
  | S754_zero _ => Some 0%Q
  | S754_finite s m e =>
      Some (((if s then Z.neg m else Z.pos m) # 1) * (2 # 1) ^ e)%Q
  | _ => None
  end.

(** ** Python values *)

(** A two-dimensional [ndarray] of float64, stored by rows. *)
Abbreviation matrix := (list (list float)).

(** [a.shape] of a two-dimensional array, and the test that all its rows
    have one length. *)
Definition shape (a : matrix) : nat * nat :=
  (length a, match a with [] => 0%nat | r :: _ => length r end).

Definition rectangular (a : matrix) : bool :=
  forallb (fun r => Nat.eqb (length r) (snd (shape a))) a.

(** The exceptions the module raises or meets.  [Exception msg] is
    [raise Exception(msg)]; [ExternalError] is whatever the extraction
    library raises; [InvalidReference] is no Python exception but the answer
    to a reference that is not in the store. *)
Inductive exn : Type :=
| Exception (msg : string)
| ZeroDivisionError
| IndexError
| TypeError
| ValueError
| AttributeError
| InvalidReference
| ExternalError (msg : string).

Inductive result (A : Type) : Type :=
| Ok (a : A)
| Raise (e : exn).
Arguments Ok {A} a.
Arguments Raise {A} e.

(** ** simple_convolution_kernel *)

Module Presets.
Local Open Scope float_scope.

(** Tophat_3.0_3x3 *)
Definition tophat_3_3x3 : matrix :=
  [[0.560000; 0.980000; 0.560000];
   [0.980000; 1.000000; 0.980000];
   [0.560000; 0.980000; 0.560000]].

(** Topcat_4.0_5x5 *)
Definition topcat_4_5x5 : matrix :=
  [[0.000000; 0.220000; 0.480000; 0.220000; 0.000000];
   [0.220000; 0.990000; 1.000000; 0.990000; 0.220000];
   [0.480000; 1.000000; 1.000000; 1.000000; 0.480000];
   [0.220000; 0.990000; 1.000000; 0.990000; 0.220000];
   [0.000000; 0.220000; 0.480000; 0.220000; 0.000000]].

(** Topcat_5.0_5x5 *)
Definition topcat_5_5x5 : matrix :=
  [[0.150000; 0.770000; 1.000000; 0.770000; 0.150000];
   [0.770000; 1.000000; 1.000000; 1.000000; 0.770000];
   [1.000000; 1.000000; 1.000000; 1.000000; 1.000000];
   [0.770000; 1.000000; 1.000000; 1.000000; 0.770000];
   [0.150000; 0.770000; 1.000000; 0.770000; 0.150000]].

(** Gaussian_3.0_5x5 *)
Definition gaussian_3_5x5 : matrix :=
  [[0.092163; 0.221178; 0.296069; 0.221178; 0.092163];
   [0.221178; 0.530797; 0.710525; 0.530797; 0.221178];
   [0.296069; 0.710525; 0.951108; 0.710525; 0.296069];
   [0.221178; 0.530797; 0.710525; 0.530797; 0.221178];
   [0.092163; 0.221178; 0.296069; 0.221178; 0.092163]].

(** Gaussian_4.0_7x7 *)
Definition gaussian_4_7x7 : matrix :=
  [[0.047454; 0.109799; 0.181612; 0.214776; 0.181612; 0.109799; 0.047454];
   [0.109799; 0.254053; 0.420215; 0.496950; 0.420215; 0.254053; 0.109799];
   [0.181612; 0.420215; 0.695055; 0.821978; 0.695055; 0.420215; 0.181612];
   [0.214776; 0.496950; 0.821978; 0.972079; 0.821978; 0.496950; 0.214776];
   [0.181612; 0.420215; 0.695055; 0.821978; 0.695055; 0.420215; 0.181612];
   [0.109799; 0.254053; 0.420215; 0.496950; 0.420215; 0.254053; 0.109799];
   [0.047454; 0.109799; 0.181612; 0.214776; 0.181612; 0.109799; 0.047454]].

(** Gaussian_5.0_9x9 *)
Definition gaussian_5_9x9 : matrix :=
  [[0.030531; 0.065238; 0.112208; 0.155356; 0.173152; 0.155356; 0.112208;
    0.065238; 0.030531];
   [0.065238; 0.139399; 0.239763; 0.331961; 0.369987; 0.331961; 0.239763;
    0.139399; 0.065238];
   [0.112208; 0.239763; 0.412386; 0.570963; 0.636368; 0.570963; 0.412386;
    0.239763; 0.112208];
   [0.155356; 0.331961; 0.570963; 0.790520; 0.881075; 0.790520; 0.570963;
    0.331961; 0.155356];
   [0.173152; 0.369987; 0.636368; 0.881075; 0.982004; 0.881075; 0.636368;
    0.369987; 0.173152];
   [0.155356; 0.331961; 0.570963; 0.790520; 0.881075; 0.790520; 0.570963;
    0.331961; 0.155356];
   [0.112208; 0.239763; 0.412386; 0.570963; 0.636368; 0.570963; 0.412386;
    0.239763; 0.112208];
   [0.065238; 0.139399; 0.239763; 0.331961; 0.369987; 0.331961; 0.239763;
    0.139399; 0.065238];
   [0.030531; 0.065238; 0.112208; 0.155356; 0.173152; 0.155356; 0.112208;
    0.065238; 0.030531]].
End Presets.

Definition more_options_msg : string :=
  "### More options will be available in the future".

(** Precomputed convolution kernel for the SEP detections; [kernel] is the
    integer the caller compares with [1] ... [6]. *)
Definition simple_convolution_kernel (kernel : Z) : result matrix :=
  if kernel =? 1 then Ok Presets.tophat_3_3x3
  else if kernel =? 2 then Ok Presets.topcat_4_5x5
  else if kernel =? 3 then Ok Presets.topcat_5_5x5
  else if kernel =? 4 then Ok Presets.gaussian_3_5x5
  else if kernel =? 5 then Ok Presets.gaussian_4_7x7
  else if kernel =? 6 then Ok Presets.gaussian_5_9x9
  else Raise (Exception more_options_msg).

(** ** get_gaussian_kernel *)

(** A scalar value, as [kernel] or an entry of a [kernel] sequence may be:
    the Python values [int], [bool], [float], [str] and [None], and the
    numpy scalars [np.int64], [np.float64] and [np.bool_], which indexing an
    array of a numeric dtype yields and which a list or tuple may hold as
    well.  Python is Python 3: a numpy integer is no [int]. *)
Inductive scalar : Type :=
| SInt (z : Z)
| SBool (b : bool)
| SFloat (f : float)
| SStr (s : string)
| SNone
| SNpInt (z : Z)
| SNpFloat (f : float)
| SNpBool (b : bool).

(** [isinstance(v, int)]: [bool] is a subclass of [int], with [True == 1];
    the numpy scalars are none. *)
Definition as_int (v : scalar) : option Z :=
  match v with
  | SInt z => Some z
  | SBool b => Some (if b then 1 else 0)
  | _ => None
  end.

(** The float an integer converts to in mixed arithmetic: exact below
    [2^53] and rounded to nearest below [2^63] in absolute value, as Python
    has it.  From [2^63] on the conversion here wraps and is not Python's;
    no array has that many rows or samples. *)
Definition float_of_int (z : Z) : float :=
  if z <? 0 then (- of_uint63 (Uint63.of_Z (- z)))%float
  else of_uint63 (Uint63.of_Z z).

(** The array operations of numpy the module calls, on one-dimensional
    arrays as lists and two-dimensional ones as lists of rows. *)
Module np.
Local Open Scope float_scope.

Definition arange (num : nat) : list float :=
  map (fun i => float_of_int (Z.of_nat i)) (seq 0 num).

(** [y[-1] = v] *)
Definition set_last (y : list float) (v : float) : list float :=
  match y with
  | [] => []
  | _ => removelast y ++ [v]
  end.

(** [np.linspace(start, stop, num)] with the end point included: [num]
    samples [i * step + start], the last one overwritten with [stop]. *)
Definition linspace (start stop : float) (num : nat) : list float :=
  let div := (num - 1)%nat in
  let y := arange num in
  let delta := stop - start in
  let y :=
    if (0 <? div)%nat then
      let step := delta / float_of_int (Z.of_nat div) in
      if step =? 0
      then map (fun v => v / float_of_int (Z.of_nat div) * delta) y
      else map (fun v => v * step) y
    else map (fun v => v * delta) y in
  let y := map (fun v => v + start) y in
  if (1 <? num)%nat then set_last y stop else y.

(** [np.diff(a)]: [a[1:] - a[:-1]] *)
Definition diff (a : list float) : list float :=
  zip_with (fun hi lo => hi - lo) (tail a) a.

Definition outer (a b : list float) : matrix :=
  map (fun x => map (fun y => x * y) b) a.

Definition sqrt (a : matrix) : matrix := map (map PrimFloat.sqrt) a.

(** [a / s] for a scalar [s] *)
Definition divide (a : matrix) (s : float) : matrix :=
  map (map (fun x => x / s)) a.

End np.

(** [scipy.stats.norm.cdf] at one point, and [ndarray.sum()] over all the
    entries of a matrix: numerical library code, taken as given. *)
Class Numerics : Type := {
  norm_cdf : float -> float;
  np_sum : matrix -> float
}.

Section Gaussian.
Context {N : Numerics}.
Local Open Scope float_scope.

(** The body of [get_gaussian_kernel] once [size] is known to divide: the
    division is the one of floats, [linspace] refuses a negative number of
    samples. *)
Definition gaussian_body (size : Z) : result matrix :=
  let interval := (float_of_int (2 * size) + 1) / float_of_int size in
  if (size + 1 <? 0)%Z then Raise ValueError
  else
    let x := np.linspace (float_of_int (- size) - interval / 2)
                         (float_of_int size + interval / 2)
                         (Z.to_nat (size + 1)) in
    let kern1d := np.diff (map norm_cdf x) in
    let kernel_raw := np.sqrt (np.outer kern1d kern1d) in
    let kernel := np.divide kernel_raw (np_sum kernel_raw) in
    Ok kernel.

(** The body of [get_gaussian_kernel] for a Python integer [size]: the
    division by the integer zero is an error. *)
Definition gaussian_kernel_of (size : Z) : result matrix :=
  if (size =? 0)%Z then Raise ZeroDivisionError else gaussian_body size.

(** Return a 2D Gaussian kernel array.  A Python [int] or [bool] goes
    through, zero apart; a numpy integer goes through as well, and its zero
    divides to infinity without an error.  A Python float zero fails in the
    division; any other float, Python's or numpy's, fails as the number of
    samples of [linspace]; a numpy boolean fails in the negation, a string
    or [None] in the arithmetic. *)
Definition get_gaussian_kernel (size sig : scalar) : result matrix :=
  match as_int size with
  | Some n => gaussian_kernel_of n
  | None =>
      match size with
      | SNpInt n => gaussian_body n
      | SFloat f => if f =? 0 then Raise ZeroDivisionError else Raise TypeError
      | _ => Raise TypeError
      end
  end.

End Gaussian.

(** ** The store, the extraction library and the monad of the module *)

(** References to the arrays the caller owns. *)
Definition loc : Type := positive.

(** What a call into the extraction library gives back. *)
Inductive ext_result (A : Type) : Type :=
| Returns (a : A)
| Fails (msg : string).
Arguments Returns {A} a.
Arguments Fails {A} msg.

(** The noise map of [sep.extract]: [err=...] or [var=...]. *)
Inductive noise_arg : Type :=
| ErrMap (e : option matrix)
| VarMap (e : option matrix).

(** The [kernel] argument of [sep_detection]: a scalar, or a list, tuple
    or one-dimensional array with its entries as indexing yields them
    (numpy scalars for an array of a numeric dtype, Python values for one of
    dtype [object]: [np.array([0, 1])] is [KArray [SNpInt 0; SNpInt 1]]). *)
Inductive kernel_arg : Type :=
| KScalar (v : scalar)
| KList (l : list scalar)
| KTuple (l : list scalar)
| KArray (l : list scalar).

#[export] Instance result_ret : MRet result := fun A a => Ok a.
#[export] Instance result_bind : MBind result := fun A B f r =>
  match r with
  | Ok a => f a
  | Raise e => Raise e
  end.

(** [l[i]] *)
Definition index (l : list scalar) (i : nat) : result scalar :=
  match l !! i with
  | Some v => Ok v
  | None => Raise IndexError
  end.

(** [mask.astype(bool)]: a fresh array, true where the entry is not zero. *)
Definition astype_bool (mask : matrix) : list (list bool) :=
  map (map (fun v => negb (v =? 0)%float)) mask.

Definition wrong_choice_msg : string := "Wrong choice for convolution kernel".

(** The extraction library [sep]: its background models, tables of detected
    objects, segmentation maps and the values of pass-through keyword
    options; [sep.Background(img, mask=, bw=, bh=, fw=, fh=, **kw)],
    [bkg.globalrms], the array [bkg.subfrom(img)] leaves in [img], and
    [sep.extract(img, thresh, err= or var=, filter_kernel=,
    segmentation_map=, **kw)].  Its errors are its own. *)
Class SepLibrary : Type := {
  background : Type;
  objects : Type;
  segmap : Type;
  pyobj : Type;
  sep_Background :
    matrix -> option (list (list bool)) -> float -> float -> float -> float ->
    gmap string pyobj -> ext_result background;
  globalrms : background -> float;
  subfrom : background -> matrix -> matrix;
  sep_extract :
    matrix -> float -> noise_arg -> matrix -> bool -> gmap string pyobj ->
    ext_result (objects * segmap)
}.

Section Sep.
Context {N : Numerics} {L : SepLibrary}.
Local Open Scope float_scope.

(** The values the two orchestrating functions pass around and return. *)
#[warnings="-register-all"]
Inductive pyval : Type :=
| PyNone
| PyImage (img : loc)
| PyBackground (b : background)
| PyObjects (o : objects)
| PySegmap (m : segmap)
| PyTuple (l : list pyval).

(** A call into the extraction library, with the arguments it received. *)
Inductive call : Type :=
| CallBackground (img : matrix) (mask : option (list (list bool)))
    (bw bh fw fh : float) (kw : gmap string pyobj)
| CallSubfrom (b : background) (img : loc)
| CallExtract (img : matrix) (thresh : float) (noise : noise_arg)
    (filter_kernel : matrix) (segmentation_map : bool) (kw : gmap string pyobj).

(** The arrays of the caller, and the calls made so far, oldest first. *)
Record state : Type := State {
  heap : gmap loc matrix;
  calls : list call
}.

(** An exception leaves the state as it was when it was raised. *)
Definition M (A : Type) : Type := state -> result A * state.

#[export] Instance M_ret : MRet M := fun A a s => (Ok a, s).
#[export] Instance M_bind : MBind M := fun A B f m s =>
  match m s with
  | (Ok a, s') => f a s'
  | (Raise e, s') => (Raise e, s')
  end.

Definition raise {A : Type} (e : exn) : M A := fun s => (Raise e, s).
Definition lift {A : Type} (r : result A) : M A := fun s => (r, s).

Definition read (img : loc) : M matrix := fun s =>
  match heap s !! img with
  | Some a => (Ok a, s)
  | None => (Raise InvalidReference, s)
  end.

Definition write (img : loc) (a : matrix) : M unit := fun s =>
  (Ok tt, State (<[img := a]> (heap s)) (calls s)).

Definition log (c : call) : M unit := fun s =>
  (Ok tt, State (heap s) (calls s ++ [c])).

Definition of_ext {A : Type} (r : ext_result A) : M A :=
  match r with
  | Returns a => mret a
  | Fails msg => raise (ExternalError msg)
  end.

Definition Background (img : loc) (mask : option (list (list bool)))
    (bw bh fw fh : float) (kw : gmap string pyobj) : M background :=
  a ← read img;
  _ ← log (CallBackground a mask bw bh fw fh kw);
  of_ext (sep_Background a mask bw bh fw fh kw).

(** [bkg.subfrom(img)]: the array behind [img] is overwritten. *)
Definition bkg_subfrom (b : background) (img : loc) : M unit :=
  a ← read img;
  _ ← log (CallSubfrom b img);
  write img (subfrom b a).

(** The keyword the noise map goes under. *)
Definition noise_keyword (noise : noise_arg) : string :=
  match noise with
  | ErrMap _ => "err"
  | VarMap _ => "var"
  end.

(** [k in kw] *)
Definition has_key (k : string) (kw : gmap string pyobj) : bool :=
  match kw !! k with
  | Some _ => true
  | None => false
  end.

(** [**kw] repeats a keyword the call of [sep.extract] gives itself.  (A
    keyword that names a positional parameter of [sep.extract] is for the
    library to refuse.) *)
Definition keyword_clash (noise : noise_arg) (kw : gmap string pyobj) : bool :=
  has_key (noise_keyword noise) kw
  || has_key "filter_kernel" kw
  || has_key "segmentation_map" kw.

(** [sep.extract(img, thresh, err= or var=, filter_kernel=,
    segmentation_map=, **kw)]: a repeated keyword is a [TypeError] of the
    call itself, raised before the library is entered. *)
Definition extract (img : loc) (thresh : float) (noise : noise_arg)
    (filter_kernel : matrix) (segmentation_map : bool)
    (kw : gmap string pyobj) : M pyval :=
  if keyword_clash noise kw then raise TypeError else
  a ← read img;
  _ ← log (CallExtract a thresh noise filter_kernel segmentation_map kw);
  r ← of_ext (sep_extract a thresh noise filter_kernel segmentation_map kw);
  mret (if segmentation_map
        then PyTuple [PyObjects (fst r); PySegmap (snd r)]
        else PyObjects (fst r)).

(** ** sep_background *)

(** The tile size when none is given: a fifth of the first extent of the
    image, and at least [bkgsize_min]. *)
Definition default_tile (shape0 : nat) (bkgsize_min : float) : float :=
  let bw := float_of_int (Z.of_nat shape0) / 5 in
  if bkgsize_min <=? bw then bw else bkgsize_min.

(** The tile and filter sizes [bw, bh, fw, fh] after the four defaults. *)
Definition tile_sizes (a : matrix) (bw bh fw fh : option float)
    (bkgsize_min : float) : float * float * float * float :=
  let bw := match bw with
            | None => default_tile (fst (shape a)) bkgsize_min
            | Some v => v
            end in
  let bh := match bh with
            | None => default_tile (fst (shape a)) bkgsize_min
            | Some v => v
            end in
  let fw := match fw with None => bw / 2 | Some v => v end in
  let fh := match fh with None => bh / 2 | Some v => v end in
  (bw, bh, fw, fh).

(** Background measurement using SEP. *)
Definition sep_background (img : loc) (mask : option matrix)
    (bw bh fw fh : option float) (subtract : bool) (bkgsize_min : float)
    (sep_kwargs : gmap string pyobj) : M pyval :=
  a ← read img;
  let '(bw, bh, fw, fh) := tile_sizes a bw bh fw fh bkgsize_min in
  let mask := astype_bool <$> mask in
  bkg ← Background img mask bw bh fw fh sep_kwargs;
  if subtract then
    _ ← bkg_subfrom bkg img;
    mret (PyTuple [PyBackground bkg; PyImage img])
  else mret (PyBackground bkg).

(** ** sep_detection *)

(** The dictionary [bkg_kwargs], by the parameters of [sep_background] it
    may name; [kw_rest] holds its entries under every other name, among them
    [img], and they go on to [sep.Background]. *)
Record bkg_kwargs_t : Type := BkgKwargs {
  kw_mask : option matrix;
  kw_bw : option float;
  kw_bh : option float;
  kw_fw : option float;
  kw_fh : option float;
  kw_subtract : option bool;
  kw_bkgsize_min : option float;
  kw_rest : gmap string pyobj
}.

(** The dictionary repeats an argument the detector gives itself: the
    image or [subtract]. *)
Definition argument_clash (kw : bkg_kwargs_t) : bool :=
  match kw_subtract kw with
  | Some _ => true
  | None => has_key "img" (kw_rest kw) || has_key "subtract" (kw_rest kw)
  end.

(** [sep_background(img, subtract=b, **bkg_kwargs)], and the same call
    without the dictionary.  An [img] or [subtract] entry clashes with the
    arguments of the call: a [TypeError] before [sep_background] is
    entered. *)
Definition call_sep_background (img : loc) (subtract : bool)
    (bkg_kwargs : option bkg_kwargs_t) : M pyval :=
  match bkg_kwargs with
  | Some kw =>
      if argument_clash kw then raise TypeError
      else
        sep_background img (kw_mask kw) (kw_bw kw) (kw_bh kw) (kw_fw kw)
          (kw_fh kw) subtract (default 10 (kw_bkgsize_min kw)) (kw_rest kw)
  | None => sep_background img None None None None None subtract 10 ∅
  end.

(** [a, b = v] *)
Definition unpack2 (v : pyval) : M (pyval * pyval) :=
  match v with
  | PyTuple [a; b] => mret (a, b)
  | PyTuple _ => raise ValueError
  | _ => raise TypeError
  end.

(** [v.globalrms] is there for a background model only. *)
Definition as_background (v : pyval) : M background :=
  match v with
  | PyBackground b => mret b
  | _ => raise AttributeError
  end.

Definition as_image (v : pyval) : M loc :=
  match v with
  | PyImage l => mret l
  | _ => raise TypeError
  end.

(** The kernel used in detection. *)
Definition resolve_kernel (kernel : kernel_arg) : result matrix :=
  match kernel with
  | KScalar v =>
      match as_int v with
      | Some k => simple_convolution_kernel k
      | None => Raise (Exception wrong_choice_msg)
      end
  | KList l | KTuple l | KArray l =>
      k0 ← index l 0;
      k1 ← index l 1;
      get_gaussian_kernel k0 k1
  end.

(** Object detection using SEP. *)
Definition sep_detection (img : loc) (threshold : float)
    (kernel : kernel_arg) (err : option matrix)
    (use_sig subtract_bkg return_bkg return_seg : bool)
    (bkg_kwargs : option bkg_kwargs_t)
    (det_kwargs : gmap string pyobj) : M pyval :=
  filter_kernel ← lift (resolve_kernel kernel);
  '(bkg, img) ←
    (if subtract_bkg then
       r ← call_sep_background img true bkg_kwargs;
       unpack2 r
     else
       bkg ← call_sep_background img false bkg_kwargs;
       mret (bkg, PyImage img));
  threshold ←
    match err with
    | None => b ← as_background bkg; mret (threshold * globalrms b)
    | Some _ => mret threshold
    end;
  img ← as_image img;
  results ←
    (if use_sig
     then extract img threshold (ErrMap err) filter_kernel return_seg det_kwargs
     else extract img threshold (VarMap err) filter_kernel return_seg det_kwargs);
  if return_seg then
    '(obj, seg) ← unpack2 results;
    if return_bkg then mret (PyTuple [obj; seg; bkg]) else mret PyNone
  else
    if return_bkg then mret (PyTuple [results; bkg]) else mret PyNone.

(** What [sep_background] hands back: the model alone, or the model with
    the image it subtracted from. *)
Definition bkg_value (subtract : bool) (b : background) (img : loc) : pyval :=
  if subtract then PyTuple [PyBackground b; PyImage img] else PyBackground b.

End Sep.

(** ** Notions the statements use *)

(** No exception of the module itself. *)
Definition foreign (e : exn) : Prop := forall msg, e <> Exception msg.

(** [r] is the larger of the numbers [x] and [y]. *)
Definition is_max (x y r : float) : Prop :=
  (r = x \/ r = y) /\ (x <=? r)%float = true /\ (y <=? r)%float = true.

(** [a[i][j]], when there is such an entry. *)
Definition entry (a : matrix) (i j : nat) : option float :=
  r ← a !! i; r !! j.

(** ** The preset tables as printed *)

(** [l] followed by its mirror image around its last element. *)
Definition mirror {A : Type} (l : list A) : list A := l ++ tail (rev l).

(** A table symmetric under both reflections, from its upper-left quadrant
    in millionths. *)
Definition of_quadrant (q : list (list Z)) : list (list Q) :=
  mirror (map (fun r => mirror (map (fun z => z # 1000000) r)) q).

(** The six tables as decimal fractions: tophat 3x3, two top-hat-like 5x5,
    and the Gaussians 5x5, 7x7 and 9x9. *)
Definition reference_table (kernel : Z) : option (list (list Q)) :=
  if kernel =? 1 then
    Some (of_quadrant [[560000; 980000];
                       [980000; 1000000]])
  else if kernel =? 2 then
    Some (of_quadrant [[0; 220000; 480000];
                       [220000; 990000; 1000000];
                       [480000; 1000000; 1000000]])
  else if kernel =? 3 then
    Some (of_quadrant [[150000; 770000; 1000000];
                       [770000; 1000000; 1000000];
                       [1000000; 1000000; 1000000]])
  else if kernel =? 4 then
    Some (of_quadrant [[92163; 221178; 296069];
                       [221178; 530797; 710525];
                       [296069; 710525; 951108]])
  else if kernel =? 5 then
    Some (of_quadrant [[47454; 109799; 181612; 214776];
                       [109799; 254053; 420215; 496950];
                       [181612; 420215; 695055; 821978];
                       [214776; 496950; 821978; 972079]])
  else if kernel =? 6 then
    Some (of_quadrant [[30531; 65238; 112208; 155356; 173152];
                       [65238; 139399; 239763; 331961; 369987];
                       [112208; 239763; 412386; 570963; 636368];
                       [155356; 331961; 570963; 790520; 881075];
                       [173152; 369987; 636368; 881075; 982004]])
  else None.

(** The side of each table. *)
Definition preset_side (kernel : Z) : nat :=
  if kernel =? 1 then 3 else if kernel =? 5 then 7 else if kernel =? 6 then 9
  else 5.

(** [x] is a finite float no further than [tol] from [r]. *)
Definition close_to (tol : Q) (x : float) (r : Q) : bool :=
  match Q_of_float x with
  | Some q => Qle_bool (Qabs (q - r)) tol
  | None => false
  end.

(** Two tables of one shape, entry by entry within [tol]. *)
Definition allclose (tol : Q) (a : matrix) (ref : list (list Q)) : bool :=
  Nat.eqb (length a) (length ref)
  && forallb (fun '(row, rrow) =>
                Nat.eqb (length row) (length rrow)
                && forallb (fun '(x, r) => close_to tol x r) (zip row rrow))
             (zip a ref).

(** ** A small library to run the module on *)

(** A rational approximation of the normal distribution function
    (Abramowitz and Stegun 26.2.18), and the sum taken left to right. *)
Definition approx_cdf (x : float) : float :=
  let t := abs x in
  let p := (1 + t * (0.196854 + t * (0.115194
                 + t * (0.000344 + t * 0.019527))))%float in
  let p2 := (p * p)%float in
  let tail := (0.5 / (p2 * p2))%float in
  if (x <? 0)%float then tail else (1 - tail)%float.

Definition sum_left (a : matrix) : float :=
  foldl PrimFloat.add 0%float (concat a).

Definition toy_numerics : Numerics :=
  {| norm_cdf := approx_cdf; np_sum := sum_left |}.

(** A flat background at the level of the first pixel, with noise 2;
    the detected objects are the pixels above the threshold, counted, and
    the segmentation map marks them. *)
Definition toy_sep : SepLibrary :=
  {| background := float;
     objects := nat;
     segmap := list (list bool);
     pyobj := Z;
     sep_Background := fun a _ _ _ _ _ _ =>
       match a with
       | (v :: _) :: _ => Returns v
       | _ => Fails "empty image"
       end;
     globalrms := fun _ => 2%float;
     subfrom := fun b a => map (map (fun v => (v - b)%float)) a;
     sep_extract := fun a thresh _ _ _ _ =>
       let above := map (map (fun v => (thresh <? v)%float)) a in
       Returns (length (filter (fun b => b = true) (concat above)), above) |}.

Definition toy_image : matrix :=
  [[100; 100; 100]; [100; 600; 100]; [100; 100; 100]]%float.

Definition toy_state : @state toy_sep := State {[ 1%positive := toy_image ]} [].

(** An extraction library that builds its models as the small one does and
    whose extraction always fails. *)
Definition failing_sep : SepLibrary :=
  {| background := float;
     objects := nat;
     segmap := list (list bool);
     pyobj := Z;
     sep_Background := @sep_Background toy_sep;
     globalrms := fun _ => 2%float;
     subfrom := @subfrom toy_sep;
     sep_extract := fun _ _ _ _ _ _ => Fails "internal pixel buffer full" |}.

Definition failing_state : @state failing_sep :=
  State {[ 1%positive := toy_image ]} [].

(** A store whose one image has no pixels. *)
Definition blank_state : @state toy_sep := State {[ 1%positive := [] ]} [].

(** ** More notions the statements use *)

(** Every entry of [m] lies between [lo] and [hi]. *)
Definition entries_between (lo hi : float) (m : matrix) : bool :=
  forallb (forallb (fun x => (lo <=? x)%float && (x <=? hi)%float)) m.

(** The middle entry of a square table of odd side. *)
Definition centre (m : matrix) : option float :=
  entry m (length m / 2) (length m / 2).

(** Which operation of the extraction library a call is: 0 for the
    background model, 1 for the subtraction, 2 for the extraction. *)
Definition call_kind `{L : SepLibrary} (c : call) : nat :=
  match c with
  | CallBackground _ _ _ _ _ _ _ => 0
  | CallSubfrom _ _ => 1
  | CallExtract _ _ _ _ _ _ => 2
  end.


(** The calls the detector makes when nothing fails. *)
Definition full_trace (subtract_bkg : bool) : list nat :=
  if subtract_bkg then [0; 1; 2]%nat else [0; 2]%nat.

(** ** Facts on binary64 arithmetic *)

Module FloatFacts.

Lemma SFmul_comm (x y : spec_float) : SF64mul x y = SF64mul y x.
Proof.
  unfold SF64mul, SFmul.
  destruct x as [sx|sx| |sx mx ex], y as [sy|sy| |sy my ey];
    try reflexivity; rewrite ?(xorb_comm sx sy); try reflexivity.
  now rewrite (Pos.mul_comm mx my), (Z.add_comm ex ey).
Qed.

Lemma mul_comm (x y : float) : (x * y)%float = (y * x)%float.
Proof.
  apply Prim2SF_inj. rewrite !mul_spec. apply SFmul_comm.
Qed.

(** Rounding never produces NaN: the mantissa stays non-negative through
    the shifts and the round-to-nearest-even increment. *)

Lemma shr_1_nonneg (mrs : shr_record) :
  0 <= shr_m mrs -> 0 <= shr_m (shr_1 mrs).
Proof.
  destruct mrs as [m r s]; simpl.
  destruct m as [|[p|p|]|[p|p|]]; simpl; lia.
Qed.

Lemma iter_shr_1_nonneg (p : positive) : forall mrs : shr_record,
  0 <= shr_m mrs -> 0 <= shr_m (SpecFloat.iter_pos shr_1 p mrs).
Proof.
  induction p as [p IH|p IH|]; intros mrs H; simpl.
  - apply IH, IH, shr_1_nonneg, H.
  - apply IH, IH, H.
  - apply shr_1_nonneg, H.
Qed.

Lemma shr_fexp_nonneg (m e : Z) (l : location) :
  0 <= m -> 0 <= shr_m (fst (shr_fexp prec emax m e l)).
Proof.
  intros H. unfold shr_fexp, shr.
  assert (H0 : 0 <= shr_m (shr_record_of_loc m l))
    by (destruct l as [|[ | | ]]; simpl; exact H).
  destruct (fexp prec emax (Zdigits2 m + e) - e); simpl; auto.
  now apply iter_shr_1_nonneg.
Qed.

Lemma round_nearest_even_nonneg (m : Z) (l : location) :
  0 <= m -> 0 <= round_nearest_even m l.
Proof.
  intros H. destruct l as [|[ | | ]]; simpl; try lia.
  destruct (Z.even m); lia.
Qed.

Lemma binary_round_aux_number (sx : bool) (mx ex : Z) (lx : location) :
  0 <= mx -> is_nan_sf (binary_round_aux prec emax sx mx ex lx) = false.
Proof.
  intros H. unfold binary_round_aux.
  pose proof (shr_fexp_nonneg mx ex lx H) as H1.
  destruct (shr_fexp prec emax mx ex lx) as [mrs' e']; simpl in H1.
  pose proof (shr_fexp_nonneg _ e' loc_Exact
                (round_nearest_even_nonneg _ (loc_of_shr_record mrs') H1)) as H2.
  destruct (shr_fexp prec emax _ e' loc_Exact) as [mrs'' e'']; simpl in H2.
  destruct (shr_m mrs'') as [|m|m]; try reflexivity; try lia.
  now destruct (e'' <=? emax - prec).
Qed.

Lemma binary_normalize_number (m e : Z) (sz : bool) :
  is_nan_sf (binary_normalize prec emax m e sz) = false.
Proof.
  destruct m as [|m|m]; simpl; try reflexivity; unfold binary_round;
    destruct (shl_align _ _ _) as [mz ez]; now apply binary_round_aux_number.
Qed.

Lemma of_uint63_number (n : int) : is_number (of_uint63 n) = true.
Proof.
  unfold is_number. now rewrite of_uint63_spec, binary_normalize_number.
Qed.

Lemma opp_number (x : float) : is_number (- x) = is_number x.
Proof.
  unfold is_number. rewrite opp_spec. now destruct (Prim2SF x).
Qed.

Lemma float_of_int_number (z : Z) : is_number (float_of_int z) = true.
Proof.
  unfold float_of_int. destruct (z <? 0).
  - rewrite opp_number. apply of_uint63_number.
  - apply of_uint63_number.
Qed.

Lemma SFdiv_core_nonneg (m1 m2 : positive) (e1 e2 : Z) :
  0 <= fst (fst (SFdiv_core_binary prec emax (Zpos m1) e1 (Zpos m2) e2)).
Proof.
  unfold SFdiv_core_binary.
  set (s := _ - _ - Z.min _ _).
  set (m' := match s with Z0 => _ | Zpos _ => _ | Zneg _ => _ end).
  assert (Hm : 0 <= m').
  { subst m'. destruct s; try lia. apply Z.shiftl_nonneg. lia. }
  pose proof (Z.div_pos m' (Zpos m2) Hm ltac:(lia)) as Hq.
  unfold Z.div in Hq.
  destruct (Z.div_eucl m' (Zpos m2)) as [q r]. exact Hq.
Qed.

Lemma div_number (x y : float) :
  is_number x = true -> is_finite_nonzero y = true -> is_number (x / y) = true.
Proof.
  unfold is_number, is_finite_nonzero. rewrite div_spec.
  destruct (Prim2SF x) as [sx|sx| |sx mx ex], (Prim2SF y) as [sy|sy| |sy my ey];
    simpl; try discriminate; try reflexivity.
  intros _ _.
  pose proof (SFdiv_core_nonneg mx my ex ey) as H.
  destruct (SFdiv_core_binary _ _ _ _ _ _) as [[mz ez] lz]; simpl in H.
  now rewrite binary_round_aux_number.
Qed.

(** The order on numbers is reflexive and total. *)

Lemma SFcompare_refl (x : spec_float) :
  is_nan_sf x = false -> SFcompare x x = Some Eq.
Proof.
  destruct x as [[|]|[|]| |[|] m e]; simpl; try discriminate; try reflexivity;
    intros _; now rewrite Z.compare_refl, Pos.compare_cont_refl.
Qed.

Lemma SFcompare_antisym (x y : spec_float) :
  SFcompare y x = option_map CompOpp (SFcompare x y).
Proof.
  destruct x as [[|]|[|]| |[|] mx ex], y as [[|]|[|]| |[|] my ey];
    simpl; try reflexivity;
    assert (Hm : Pos.compare_cont Eq my mx = CompOpp (Pos.compare_cont Eq mx my))
      by (now rewrite Pos.compare_cont_antisym);
    rewrite Hm, (Z.compare_antisym ex ey);
    destruct (ex ?= ey); simpl; try reflexivity;
    now rewrite ?CompOpp_involutive.
Qed.

Lemma SFcompare_number (x y : spec_float) :
  is_nan_sf x = false -> is_nan_sf y = false -> exists c, SFcompare x y = Some c.
Proof.
  destruct x, y; simpl; try discriminate; intros _ _; eexists; reflexivity.
Qed.

Lemma leb_refl (x : float) : is_number x = true -> (x <=? x)%float = true.
Proof.
  unfold is_number. rewrite leb_spec. unfold SFleb. intros H.
  rewrite SFcompare_refl; [reflexivity|].
  now destruct (is_nan_sf (Prim2SF x)).
Qed.

Lemma leb_total (x y : float) :
  is_number x = true -> is_number y = true ->
  (x <=? y)%float = false -> (y <=? x)%float = true.
Proof.
  unfold is_number. rewrite !leb_spec. unfold SFleb. intros Hx Hy.
  rewrite (SFcompare_antisym (Prim2SF x) (Prim2SF y)).
  destruct (SFcompare_number (Prim2SF x) (Prim2SF y)) as [c ->].
  - now destruct (is_nan_sf (Prim2SF x)).
  - now destruct (is_nan_sf (Prim2SF y)).
  - now destruct c.
Qed.

End FloatFacts.

(** ** The preset kernels *)

Lemma preset_cases (kernel : Z) :
  1 <= kernel <= 6 ->
  kernel = 1 \/ kernel = 2 \/ kernel = 3 \/ kernel = 4 \/ kernel = 5 \/ kernel = 6.
Proof. lia. Qed.

(** C5: for each preset id from 1 to 6, [simple_convolution_kernel] returns
    a table, square of side 3, 5, 5, 5, 7 and 9, whose binary64 entries are
    the printed decimal fractions of the reference table within 1e-6. *)
Theorem simple_convolution_kernel_tables (kernel : Z) :
  1 <= kernel <= 6 ->
  exists (m : matrix) (ref : list (list Q)),
    simple_convolution_kernel kernel = Ok m /\
    reference_table kernel = Some ref /\
    shape m = (preset_side kernel, preset_side kernel) /\
    rectangular m = true /\
    allclose (1 # 1000000) m ref = true.
Proof.
  intros H.
  destruct (preset_cases kernel H) as [-> | [-> | [-> | [-> | [-> | ->]]]]];
    (eexists; eexists; split; [reflexivity | split; [reflexivity | ]]);
    repeat split; vm_compute; reflexivity.
Qed.

Lemma simple_convolution_kernel_tables_witness :
  exists (m : matrix) (ref : list (list Q)),
    simple_convolution_kernel 4 = Ok m /\
    reference_table 4 = Some ref /\
    shape m = (preset_side 4, preset_side 4) /\
    rectangular m = true /\
    allclose (1 # 1000000) m ref = true.
Proof.
  apply (simple_convolution_kernel_tables 4). lia.
Defined.

(** C7: [simple_convolution_kernel] raises its exception, the one whose
    message says that more options will be available in the future, exactly
    when the integer is outside 1..6; it raises nothing else, and returns a
    table for 1..6. *)
Theorem simple_convolution_kernel_unsupported (kernel : Z) :
  (simple_convolution_kernel kernel = Raise (Exception more_options_msg)
   <-> (kernel < 1 \/ 6 < kernel)) /\
  (forall e : exn, simple_convolution_kernel kernel = Raise e ->
                   e = Exception more_options_msg) /\
  (1 <= kernel <= 6 -> exists m : matrix, simple_convolution_kernel kernel = Ok m).
Proof.
  unfold simple_convolution_kernel.
  repeat match goal with
         | |- context [?a =? ?b] => destruct (Z.eqb_spec a b); [subst|]
         end;
    (split; [split; [intros; try discriminate; lia | intros; try reflexivity; lia]
            | split; [intros e He; congruence
                     | intros; try lia; eexists; reflexivity]]).
Qed.

(** ** The Gaussian kernel *)

Module GaussianFacts.

Lemma length_arange (num : nat) : length (np.arange num) = num.
Proof. unfold np.arange. now rewrite length_map, length_seq. Qed.

Lemma length_set_last (y : list float) (v : float) :
  length (np.set_last y v) = length y.
Proof.
  destruct y as [|x y]; [reflexivity|]. unfold np.set_last.
  rewrite length_app, removelast_firstn_len, length_take. simpl. lia.
Qed.

Lemma length_linspace (start stop : float) (num : nat) :
  length (np.linspace start stop num) = num.
Proof.
  unfold np.linspace.
  destruct (1 <? num)%nat; rewrite ?length_set_last, length_map;
    destruct (0 <? num - 1)%nat; try destruct (_ =? _)%float;
    now rewrite length_map, length_arange.
Qed.

Lemma length_diff (a : list float) : length (np.diff a) = (length a - 1)%nat.
Proof.
  unfold np.diff. rewrite length_zip_with. destruct a; simpl; lia.
Qed.

(** The kernel built from a one-dimensional kernel of [n] entries has [n]
    rows of [n] entries. *)
Lemma shape_of_kern1d (k : list float) (s : float) :
  let m := np.divide (np.sqrt (np.outer k k)) s in
  shape m = (length k, length k) /\ rectangular m = true.
Proof.
  unfold np.divide, np.sqrt, np.outer, rectangular, shape.
  rewrite !map_map, length_map. split.
  - destruct k; simpl; [reflexivity|]. now rewrite !length_map.
  - apply forallb_forall. intros r Hr.
    apply in_map_iff in Hr as [x [<- _]]. rewrite !length_map.
    destruct k; simpl; [reflexivity|]. rewrite !length_map. simpl.
    apply Nat.eqb_refl.
Qed.

Lemma lookup_map {A B : Type} (f : A -> B) (l : list A) (i : nat) :
  map f l !! i = f <$> (l !! i).
Proof. exact (list_lookup_fmap f l i). Qed.

Lemma entry_of_kern1d (k : list float) (s : float) (i j : nat) :
  entry (np.divide (np.sqrt (np.outer k k)) s) i j
  = x ← k !! i; y ← k !! j; Some (PrimFloat.sqrt (x * y) / s)%float.
Proof.
  unfold entry, np.divide, np.sqrt, np.outer.
  rewrite !map_map, lookup_map. destruct (k !! i) as [x|]; [|reflexivity].
  simpl. rewrite !map_map, lookup_map. now destruct (k !! j).
Qed.

Lemma gaussian_body_symmetric `{N : Numerics} (n : Z) (m : matrix)
    (i j : nat) :
  gaussian_body n = Ok m -> entry m i j = entry m j i.
Proof.
  unfold gaussian_body. destruct (n + 1 <? 0); [discriminate|].
  intros [= <-]. rewrite !entry_of_kern1d.
  match goal with |- context [np.diff ?x] => generalize (np.diff x) end.
  intros k. destruct (k !! i) as [x|], (k !! j) as [y|]; simpl; try reflexivity.
  now rewrite (FloatFacts.mul_comm x y).
Qed.

(** X1: the kernel is its own transpose, whatever the numerical library:
    binary64 multiplication commutes. *)
Lemma gaussian_kernel_symmetric `{N : Numerics} (size sig : scalar)
    (m : matrix) (i j : nat) :
  get_gaussian_kernel size sig = Ok m -> entry m i j = entry m j i.
Proof.
  unfold get_gaussian_kernel, gaussian_kernel_of.
  destruct (as_int size) as [n|].
  - destruct (n =? 0); [discriminate|]. apply gaussian_body_symmetric.
  - destruct size; try destruct (_ =? _)%float; try discriminate.
    apply gaussian_body_symmetric.
Qed.

End GaussianFacts.

(** C1, as the code has it: for every integer [size >= 1] and every [sig],
    [get_gaussian_kernel(size, sig)] returns a matrix of [size] rows of
    [size] entries. *)
Theorem get_gaussian_kernel_shape `{N : Numerics} (size : Z) (sig : scalar) :
  1 <= size ->
  exists m : matrix,
    get_gaussian_kernel (SInt size) sig = Ok m /\
    shape m = (Z.to_nat size, Z.to_nat size) /\
    rectangular m = true.
Proof.
  intros H. unfold get_gaussian_kernel, gaussian_kernel_of. simpl.
  destruct (Z.eqb_spec size 0) as [->|_]; [lia|]. unfold gaussian_body.
  destruct (Z.ltb_spec (size + 1) 0) as [?|_]; [lia|].
  eexists. split; [reflexivity|].
  match goal with
  | |- context [np.divide (np.sqrt (np.outer ?k ?k)) ?s] =>
      destruct (GaussianFacts.shape_of_kern1d k s) as [Hs Hr];
      assert (Hk : length k = Z.to_nat size)
  end.
  { rewrite GaussianFacts.length_diff, length_map, GaussianFacts.length_linspace.
    lia. }
  rewrite Hk in Hs. split; assumption.
Qed.

Lemma get_gaussian_kernel_shape_witness :
  exists m : matrix,
    @get_gaussian_kernel toy_numerics (SInt 3) (SFloat 2) = Ok m /\
    shape m = (Z.to_nat 3, Z.to_nat 3) /\
    rectangular m = true.
Proof.
  apply (@get_gaussian_kernel_shape toy_numerics 3 (SFloat 2)). lia.
Defined.

(** C1 as stated fails at [size = 1]: the kernel is one by one, not three
    by three. *)
Lemma get_gaussian_kernel_shape_counterexample :
  exists m : matrix,
    @get_gaussian_kernel toy_numerics (SInt 1) (SFloat 2) = Ok m /\
    shape m = (1, 1)%nat /\
    shape m <> (Z.to_nat (2 * 1 + 1), Z.to_nat (2 * 1 + 1)).
Proof.
  eexists. split; [vm_compute; reflexivity|]. split; [reflexivity|].
  vm_compute. discriminate.
Qed.

(** C10: the result of [get_gaussian_kernel] does not depend on [sig]. *)
Theorem get_gaussian_kernel_ignores_sig `{N : Numerics}
    (size sig1 sig2 : scalar) :
  get_gaussian_kernel size sig1 = get_gaussian_kernel size sig2.
Proof.
  unfold get_gaussian_kernel. destruct (as_int size); reflexivity.
Qed.

(** ** Runs of the background estimator and of the detector *)

Section SepFacts.
Context {N : Numerics} {L : SepLibrary}.
Local Open Scope float_scope.

Lemma sep_background_dangling (img : loc) (mask : option matrix)
    (bw bh fw fh : option float) (subtract : bool) (bkgsize_min : float)
    (kw : gmap string pyobj) (s : state) :
  heap s !! img = None ->
  sep_background img mask bw bh fw fh subtract bkgsize_min kw s
  = (Raise InvalidReference, s).
Proof.
  intros H. unfold sep_background, read, mbind, M_bind. now rewrite H.
Qed.

Lemma sep_background_run (img : loc) (mask : option matrix)
    (bw bh fw fh : option float) (subtract : bool) (bkgsize_min : float)
    (kw : gmap string pyobj) (s : state) (a : matrix) :
  heap s !! img = Some a ->
  sep_background img mask bw bh fw fh subtract bkgsize_min kw s =
  let '(bw, bh, fw, fh) := tile_sizes a bw bh fw fh bkgsize_min in
  let mask := astype_bool <$> mask in
  let s1 := State (heap s) (calls s ++ [CallBackground a mask bw bh fw fh kw]) in
  match sep_Background a mask bw bh fw fh kw with
  | Fails msg => (Raise (ExternalError msg), s1)
  | Returns b =>
      if subtract
      then (Ok (bkg_value true b img),
            State (<[img := subfrom b a]> (heap s))
                  (calls s1 ++ [CallSubfrom b img]))
      else (Ok (bkg_value false b img), s1)
  end.
Proof.
  intros H.
  unfold sep_background, Background, bkg_subfrom, read, log, write, of_ext,
    raise, mbind, mret, M_bind, M_ret.
  rewrite H. destruct (tile_sizes _ _ _ _ _ _) as [[[bw' bh'] fw'] fh'].
  simpl. rewrite H.
  destruct (sep_Background _ _ _ _ _ _ _); [|reflexivity].
  destruct subtract; simpl; [|reflexivity]. now rewrite H.
Qed.

(** The outcome of [sep_background]: an exception that is not the
    module's own, the heap untouched; or the model, with the image
    subtracted in place when that was asked. *)
Lemma sep_background_outcome (img : loc) (mask : option matrix)
    (bw bh fw fh : option float) (subtract : bool) (bkgsize_min : float)
    (kw : gmap string pyobj) (s s1 : state) (r : result pyval) :
  sep_background img mask bw bh fw fh subtract bkgsize_min kw s = (r, s1) ->
  match r with
  | Raise e => foreign e /\ heap s1 = heap s
  | Ok v =>
      exists (b : background) (a : matrix),
        heap s !! img = Some a /\
        v = bkg_value subtract b img /\
        heap s1 = (if subtract then <[img := subfrom b a]> (heap s) else heap s) /\
        heap s1 !! img = Some (if subtract then subfrom b a else a)
  end.
Proof.
  destruct (heap s !! img) as [a|] eqn:Ha.
  - rewrite (sep_background_run _ _ _ _ _ _ _ _ _ _ a Ha).
    destruct (tile_sizes _ _ _ _ _ _) as [[[bw' bh'] fw'] fh']. cbv zeta.
    destruct (sep_Background _ _ _ _ _ _ _) as [b|msg].
    + destruct subtract; intros [= <- <-]; exists b, a; simpl;
        repeat split; auto.
      apply lookup_insert_eq.
    + intros [= <- <-]. split; [intros msg' ?; discriminate | reflexivity].
  - rewrite sep_background_dangling by assumption.
    intros [= <- <-]. split; [intros msg' ?; discriminate | reflexivity].
Qed.

(** The same for the call of [sep_background] the detector makes. *)
Lemma call_sep_background_run (img : loc) (subtract : bool)
    (bkg_kwargs : option bkg_kwargs_t) (s s1 : state) (r : result pyval) :
  call_sep_background img subtract bkg_kwargs s = (r, s1) ->
  match r with
  | Raise e => foreign e /\ heap s1 = heap s
  | Ok v =>
      exists (b : background) (a : matrix),
        heap s !! img = Some a /\
        v = bkg_value subtract b img /\
        heap s1 = (if subtract then <[img := subfrom b a]> (heap s) else heap s) /\
        heap s1 !! img = Some (if subtract then subfrom b a else a)
  end.
Proof.
  unfold call_sep_background.
  destruct bkg_kwargs as [kw|]; [destruct (argument_clash kw)|];
    try apply sep_background_outcome.
  intros [= <- <-]. split; [intros msg' ?; discriminate | reflexivity].
Qed.

Lemma sep_detection_kernel_error (img : loc) (threshold : float)
    (kernel : kernel_arg) (err : option matrix)
    (use_sig subtract_bkg return_bkg return_seg : bool)
    (bkg_kwargs : option bkg_kwargs_t) (det_kwargs : gmap string pyobj)
    (s : state) (e : exn) :
  resolve_kernel kernel = Raise e ->
  sep_detection img threshold kernel err use_sig subtract_bkg return_bkg
    return_seg bkg_kwargs det_kwargs s = (Raise e, s).
Proof.
  intros H. unfold sep_detection, lift, mbind, M_bind. now rewrite H.
Qed.

Lemma sep_detection_background_error (img : loc) (threshold : float)
    (kernel : kernel_arg) (err : option matrix)
    (use_sig subtract_bkg return_bkg return_seg : bool)
    (bkg_kwargs : option bkg_kwargs_t) (det_kwargs : gmap string pyobj)
    (s s1 : state) (fk : matrix) (e : exn) :
  resolve_kernel kernel = Ok fk ->
  call_sep_background img subtract_bkg bkg_kwargs s = (Raise e, s1) ->
  sep_detection img threshold kernel err use_sig subtract_bkg return_bkg
    return_seg bkg_kwargs det_kwargs s = (Raise e, s1).
Proof.
  intros Hk Hb. unfold sep_detection, lift, mbind, M_bind. rewrite Hk.
  destruct subtract_bkg; now rewrite Hb.
Qed.

(** The run of the detector once the kernel is resolved and the background
    estimated: one call of the extraction, and the value built from it. *)
Lemma sep_detection_run (img : loc) (threshold : float)
    (kernel : kernel_arg) (err : option matrix)
    (use_sig subtract_bkg return_bkg return_seg : bool)
    (bkg_kwargs : option bkg_kwargs_t) (det_kwargs : gmap string pyobj)
    (s s1 : state) (fk a : matrix) (b : background) :
  resolve_kernel kernel = Ok fk ->
  call_sep_background img subtract_bkg bkg_kwargs s
    = (Ok (bkg_value subtract_bkg b img), s1) ->
  heap s1 !! img = Some a ->
  keyword_clash (if use_sig then ErrMap err else VarMap err) det_kwargs
    = false ->
  sep_detection img threshold kernel err use_sig subtract_bkg return_bkg
    return_seg bkg_kwargs det_kwargs s =
  let thresh := match err with
                | None => threshold * globalrms b
                | Some _ => threshold
                end in
  let noise := if use_sig then ErrMap err else VarMap err in
  let s2 := State (heap s1)
              (calls s1 ++ [CallExtract a thresh noise fk return_seg det_kwargs]) in
  match sep_extract a thresh noise fk return_seg det_kwargs with
  | Fails msg => (Raise (ExternalError msg), s2)
  | Returns r =>
      (Ok (if return_bkg then
             if return_seg
             then PyTuple [PyObjects (fst r); PySegmap (snd r); PyBackground b]
             else PyTuple [PyObjects (fst r); PyBackground b]
           else PyNone), s2)
  end.
Proof.
  intros Hk Hb Ha Hc.
  unfold sep_detection, lift, mbind, M_bind. rewrite Hk.
  destruct subtract_bkg; rewrite Hb; simpl;
    destruct err, use_sig; simpl;
    unfold extract; rewrite Hc;
    unfold read, log, of_ext, raise, mbind, mret, M_bind, M_ret;
    rewrite Ha; simpl;
    destruct (sep_extract _ _ _ _ _ _) as [r|msg]; try reflexivity;
    destruct return_seg, return_bkg; reflexivity.
Qed.

(** The run of the detector when [det_kwargs] repeats a keyword of the
    call of the extraction: the background is estimated, and subtracted if
    asked, and the call fails before the library is entered. *)
Lemma sep_detection_clash (img : loc) (threshold : float)
    (kernel : kernel_arg) (err : option matrix)
    (use_sig subtract_bkg return_bkg return_seg : bool)
    (bkg_kwargs : option bkg_kwargs_t) (det_kwargs : gmap string pyobj)
    (s s1 : state) (fk : matrix) (b : background) :
  resolve_kernel kernel = Ok fk ->
  call_sep_background img subtract_bkg bkg_kwargs s
    = (Ok (bkg_value subtract_bkg b img), s1) ->
  keyword_clash (if use_sig then ErrMap err else VarMap err) det_kwargs
    = true ->
  sep_detection img threshold kernel err use_sig subtract_bkg return_bkg
    return_seg bkg_kwargs det_kwargs s = (Raise TypeError, s1).
Proof.
  intros Hk Hb Hc.
  unfold sep_detection, lift, mbind, M_bind. rewrite Hk.
  destruct subtract_bkg; rewrite Hb; simpl;
    destruct err, use_sig; simpl;
    unfold extract; rewrite Hc; reflexivity.
Qed.

(** C2, as the code has it: a successful call returns the objects, the
    segmentation map when [return_seg] is set, and the background model, in
    this order, when [return_bkg] is set; when [return_bkg] is not set it
    returns [None], whatever [return_seg] is. *)
Theorem sep_detection_return_value (img : loc) (threshold : float)
    (kernel : kernel_arg) (err : option matrix)
    (use_sig subtract_bkg return_bkg return_seg : bool)
    (bkg_kwargs : option bkg_kwargs_t) (det_kwargs : gmap string pyobj)
    (s s' : state) (v : pyval) :
  sep_detection img threshold kernel err use_sig subtract_bkg return_bkg
    return_seg bkg_kwargs det_kwargs s = (Ok v, s') ->
  exists (o : objects) (sg : segmap) (b : background),
    v = if return_bkg then
          if return_seg
          then PyTuple [PyObjects o; PySegmap sg; PyBackground b]
          else PyTuple [PyObjects o; PyBackground b]
        else PyNone.
Proof.
  intros H.
  destruct (resolve_kernel kernel) as [fk|e] eqn:Hk.
  2: { rewrite (sep_detection_kernel_error _ _ _ _ _ _ _ _ _ _ _ _ Hk) in H.
       discriminate. }
  destruct (call_sep_background img subtract_bkg bkg_kwargs s) as [r s1] eqn:Hb.
  pose proof (call_sep_background_run _ _ _ _ _ _ Hb) as Hr.
  destruct r as [v0|e].
  - destruct Hr as (b & a & _ & -> & _ & Ha).
    destruct (keyword_clash (if use_sig then ErrMap err else VarMap err)
                det_kwargs) eqn:Hc.
    { rewrite (sep_detection_clash _ _ _ _ _ _ _ _ _ _ _ _ _ _ Hk Hb Hc) in H.
      discriminate. }
    rewrite (sep_detection_run _ _ _ _ _ _ _ _ _ _ _ _ _ _ _ Hk Hb Ha Hc) in H.
    cbv zeta in H.
    destruct (sep_extract _ _ _ _ _ _) as [[o sg]|msg]; [|discriminate].
    injection H as <- _. now exists o, sg, b.
  - rewrite (sep_detection_background_error _ _ _ _ _ _ _ _ _ _ _ _ _ _ Hk Hb) in H.
    discriminate.
Qed.

(** C4: once the kernel is resolved and the background estimated, and
    with no keyword of the call repeated in [det_kwargs], the detector calls
    the extraction once, on the image as it then is, with the caller's
    threshold times the [globalrms] of the model when [err] is [None], and
    with the caller's threshold itself when [err] is given. *)
Theorem sep_detection_threshold (img : loc) (threshold : float)
    (kernel : kernel_arg) (err : option matrix)
    (use_sig subtract_bkg return_bkg return_seg : bool)
    (bkg_kwargs : option bkg_kwargs_t) (det_kwargs : gmap string pyobj)
    (s s1 : state) (fk : matrix) (v : pyval) :
  resolve_kernel kernel = Ok fk ->
  call_sep_background img subtract_bkg bkg_kwargs s = (Ok v, s1) ->
  keyword_clash (if use_sig then ErrMap err else VarMap err) det_kwargs
    = false ->
  exists (b : background) (a : matrix),
    v = bkg_value subtract_bkg b img /\
    heap s1 !! img = Some a /\
    calls (snd (sep_detection img threshold kernel err use_sig subtract_bkg
                  return_bkg return_seg bkg_kwargs det_kwargs s))
    = calls s1 ++
      [CallExtract a
         (match err with
          | None => threshold * globalrms b
          | Some _ => threshold
          end)
         (if use_sig then ErrMap err else VarMap err)
         fk return_seg det_kwargs].
Proof.
  intros Hk Hb Hc.
  destruct (call_sep_background_run _ _ _ _ _ _ Hb) as (b & a & _ & -> & _ & Ha).
  exists b, (if subtract_bkg then subfrom b a else a).
  split; [reflexivity|]. split; [exact Ha|].
  rewrite (sep_detection_run _ _ _ _ _ _ _ _ _ _ _ _ _ _ _ Hk Hb Ha Hc).
  cbv zeta. now destruct (sep_extract _ _ _ _ _ _).
Qed.

Lemma preset_raises (k : Z) (e : exn) :
  simple_convolution_kernel k = Raise e -> e = Exception more_options_msg.
Proof.
  unfold simple_convolution_kernel.
  repeat match goal with
         | |- context [Z.eqb ?a ?b] => destruct (Z.eqb a b)
         end; congruence.
Qed.

Lemma gaussian_raises (size sig : scalar) (e : exn) :
  get_gaussian_kernel size sig = Raise e -> foreign e.
Proof.
  unfold get_gaussian_kernel, gaussian_kernel_of, gaussian_body.
  destruct (as_int size) as [n|].
  - destruct (n =? 0)%Z; [|destruct (n + 1 <? 0)%Z];
      intros [= <-] msg ?; discriminate.
  - destruct size as [z|b|f|str| |z|f|b]; try destruct (_ =? _);
      try destruct (z + 1 <? 0)%Z; intros [= <-] msg ?; discriminate.
Qed.

(** The kernel is refused as a wrong choice exactly when it is a scalar
    that is no integer. *)
Lemma resolve_kernel_wrong_choice (kernel : kernel_arg) (msg : string) :
  resolve_kernel kernel = Raise (Exception msg) ->
  (msg = wrong_choice_msg /\ exists v, kernel = KScalar v /\ as_int v = None) \/
  (msg = more_options_msg /\ exists v k, kernel = KScalar v /\ as_int v = Some k).
Proof.
  assert (Hseq : forall l : list scalar,
             (k0 ← index l 0; k1 ← index l 1; get_gaussian_kernel k0 k1)
             = Raise (Exception msg) -> False).
  { intros l. unfold index, mbind, result_bind.
    destruct (l !! 0%nat) as [k0|]; [|discriminate].
    destruct (l !! 1%nat) as [k1|]; [|discriminate].
    intros H. exact (gaussian_raises _ _ _ H msg eq_refl). }
  destruct kernel as [v|l|l|l]; simpl; try (intros H; destruct (Hseq l H)).
  destruct (as_int v) as [k|] eqn:Hv.
  - intros H. apply preset_raises in H. injection H as ->.
    right. split; [reflexivity|]. now exists v, k.
  - intros [= <-]. left. split; [reflexivity|]. now exists v.
Qed.



(** The calls of the call of [sep_background] the detector makes: none of
    them is an extraction. *)
Lemma call_sep_background_new (img : loc) (subtract : bool)
    (bkg_kwargs : option bkg_kwargs_t) (s s1 : state) (r : result pyval) :
  call_sep_background img subtract bkg_kwargs s = (r, s1) ->
  exists pre : list call,
    calls s1 = calls s ++ pre /\
    Forall (fun c => call_kind c <> 2%nat) pre.
Proof.
  assert (Hsb : forall mask bw bh fw fh m kw,
             sep_background img mask bw bh fw fh subtract m kw s = (r, s1) ->
             exists pre : list call,
               calls s1 = calls s ++ pre /\
               Forall (fun c => call_kind c <> 2%nat) pre).
  { intros mask bw bh fw fh m kw.
    destruct (heap s !! img) as [a|] eqn:Ha.
    - rewrite (sep_background_run _ _ _ _ _ _ _ _ _ _ a Ha).
      destruct (tile_sizes _ _ _ _ _ _) as [[[bw' bh'] fw'] fh']. cbv zeta.
      destruct (sep_Background _ _ _ _ _ _ _) as [b|msg];
        [destruct subtract|]; intros [= <- <-]; simpl;
        rewrite <- ?app_assoc; eexists; (split; [reflexivity|]);
        repeat constructor; discriminate.
    - rewrite sep_background_dangling by assumption.
      intros [= <- <-]. exists []. now rewrite app_nil_r. }
  unfold call_sep_background.
  destruct bkg_kwargs as [kw|]; [destruct (argument_clash kw)|]; try apply Hsb.
  intros [= <- <-]. exists []. now rewrite app_nil_r.
Qed.




Lemma default_tile_max (shape0 : nat) (bkgsize_min : float) :
  is_number bkgsize_min = true ->
  is_max (float_of_int (Z.of_nat shape0) / 5) bkgsize_min
         (default_tile shape0 bkgsize_min).
Proof.
  intros Hm. unfold default_tile, is_max.
  set (x := float_of_int (Z.of_nat shape0) / 5).
  assert (Hx : is_number x = true).
  { apply FloatFacts.div_number; [apply FloatFacts.float_of_int_number|].
    reflexivity. }
  destruct (bkgsize_min <=? x) eqn:E.
  - split; [now left|]. split; [now apply FloatFacts.leb_refl | exact E].
  - split; [now right|].
    split; [now apply FloatFacts.leb_total | now apply FloatFacts.leb_refl].
Qed.

(** C3: with none of [bw, bh, fw, fh] given, [sep_background] calls
    [sep.Background] with [bw = bh], the larger of a fifth of the first
    extent of the image and [bkgsize_min], and with [fw = fh = bw / 2]; with
    the default [bkgsize_min] of 10 an image of 100 by 100 gets 20, 20, 10
    and 10, and one of 40 by 40 gets 10 and 10 for [bw] and [bh]. *)
Theorem sep_background_default_sizes (img : loc) (mask : option matrix)
    (subtract : bool) (bkgsize_min : float) (kw : gmap string pyobj)
    (s : state) (a : matrix) :
  heap s !! img = Some a ->
  is_number bkgsize_min = true ->
  exists bw : float,
    is_max (float_of_int (Z.of_nat (fst (shape a))) / 5) bkgsize_min bw /\
    tile_sizes a None None None None bkgsize_min = (bw, bw, bw / 2, bw / 2) /\
    calls (snd (sep_background img mask None None None None subtract
                  bkgsize_min kw s)) !! length (calls s)
    = Some (CallBackground a (astype_bool <$> mask) bw bw (bw / 2) (bw / 2) kw) /\
    tile_sizes (replicate 100 (replicate 100 0)) None None None None 10
    = (20, 20, 10, 10) /\
    tile_sizes (replicate 40 (replicate 40 0)) None None None None 10
    = (10, 10, 5, 5).
Proof.
  intros Ha Hm. exists (default_tile (fst (shape a)) bkgsize_min).
  split; [now apply default_tile_max|]. split; [reflexivity|].
  split; [|split; vm_compute; reflexivity].
  rewrite (sep_background_run _ _ _ _ _ _ _ _ _ _ a Ha).
  unfold tile_sizes. cbv zeta.
  destruct (sep_Background _ _ _ _ _ _ _) as [b|msg]; [destruct subtract|];
    simpl; rewrite <- ?app_assoc; now apply list_lookup_middle.
Qed.

End SepFacts.

(** ** The theorems at work on the small library *)

(** The failing input of C2: the segmentation map is asked for and the
    background model is not; the call succeeds and returns [None]. *)
Lemma sep_detection_return_value_witness :
  let run := @sep_detection toy_numerics toy_sep 1%positive 5
               (KScalar (SInt 4)) None true true false true None ∅ toy_state in
  fst run = Ok PyNone /\
  exists (o : @objects toy_sep) (sg : @segmap toy_sep) (b : @background toy_sep),
    @PyNone toy_sep
    = if false then
        if true
        then PyTuple [PyObjects o; PySegmap sg; PyBackground b]
        else PyTuple [PyObjects o; PyBackground b]
      else PyNone.
Proof.
  split; [vm_compute; reflexivity|].
  apply (@sep_detection_return_value toy_numerics toy_sep 1%positive 5
           (KScalar (SInt 4)) None true true false true None ∅ toy_state
           (snd (@sep_detection toy_numerics toy_sep 1%positive 5
                   (KScalar (SInt 4)) None true true false true None ∅
                   toy_state))
           PyNone).
  vm_compute. reflexivity.
Defined.

Lemma sep_background_default_sizes_witness :
  exists bw : float,
    is_max (float_of_int (Z.of_nat (fst (shape toy_image))) / 5) 10 bw /\
    tile_sizes toy_image None None None None 10 = (bw, bw, bw / 2, bw / 2)%float /\
    calls (snd (@sep_background toy_sep 1%positive None None None None None
                  false 10 ∅ toy_state)) !! length (calls toy_state)
    = Some (CallBackground toy_image (astype_bool <$> None) bw bw
              (bw / 2) (bw / 2) ∅) /\
    tile_sizes (replicate 100 (replicate 100 0%float)) None None None None 10
    = (20, 20, 10, 10)%float /\
    tile_sizes (replicate 40 (replicate 40 0%float)) None None None None 10
    = (10, 10, 5, 5)%float.
Proof.
  apply (@sep_background_default_sizes toy_sep 1%positive None false 10 ∅
           toy_state toy_image); reflexivity.
Defined.

Lemma sep_detection_threshold_witness :
  let s1 := snd (@call_sep_background toy_sep 1%positive true None toy_state) in
  exists (b : @background toy_sep) (a : matrix),
    PyTuple [@PyBackground toy_sep 100%float; PyImage 1%positive]
    = bkg_value true b 1%positive /\
    heap s1 !! 1%positive = Some a /\
    calls (snd (@sep_detection toy_numerics toy_sep 1%positive 5
                  (KScalar (SInt 4)) None true true true true None ∅ toy_state))
    = calls s1 ++
      [CallExtract a (5 * globalrms b) (ErrMap None) Presets.gaussian_3_5x5
         true ∅].
Proof.
  apply (@sep_detection_threshold toy_numerics toy_sep 1%positive 5
           (KScalar (SInt 4)) None true true true true None ∅ toy_state
           (snd (@call_sep_background toy_sep 1%positive true None toy_state))
           Presets.gaussian_3_5x5
           (PyTuple [@PyBackground toy_sep 100%float; PyImage 1%positive])).
  - reflexivity.
  - vm_compute. reflexivity.
  - reflexivity.
Defined.

(** ** More on the kernels *)

(** X1, at work: the kernel of size 3 on the small library. *)
Lemma gaussian_kernel_symmetric_witness :
  exists m : matrix,
    @get_gaussian_kernel toy_numerics (SInt 3) SNone = Ok m /\
    entry m 0 2 = entry m 2 0.
Proof.
  eexists. split; [vm_compute; reflexivity|].
  apply (@GaussianFacts.gaussian_kernel_symmetric toy_numerics (SInt 3) SNone).
  vm_compute. reflexivity.
Defined.


Lemma preset_table (kernel : Z) (m : matrix) :
  simple_convolution_kernel kernel = Ok m ->
  m = Presets.tophat_3_3x3 \/ m = Presets.topcat_4_5x5 \/
  m = Presets.topcat_5_5x5 \/ m = Presets.gaussian_3_5x5 \/
  m = Presets.gaussian_4_7x7 \/ m = Presets.gaussian_5_9x9.
Proof.
  unfold simple_convolution_kernel.
  repeat match goal with
         | |- context [Z.eqb ?a ?b] => destruct (Z.eqb a b)
         end; intros [= <-]; tauto.
Qed.

Ltac by_index i j :=
  do 10 (try destruct i as [|i]); do 10 (try destruct j as [|j]); reflexivity.

(** X3: every table [simple_convolution_kernel] returns has an odd number
    of rows, is its own transpose and its own mirror image top to bottom
    and left to right, has all its entries between 0 and 1, and none larger
    than the one in the centre. *)
Theorem simple_convolution_kernel_symmetric (kernel : Z) (m : matrix) :
  simple_convolution_kernel kernel = Ok m ->
  Nat.odd (length m) = true /\
  (forall i j : nat, entry m i j = entry m j i) /\
  rev m = m /\ map (@rev float) m = m /\
  entries_between 0 1 m = true /\
  exists c : float, centre m = Some c /\ entries_between 0 c m = true.
Proof.
  intros H.
  destruct (preset_table kernel m H) as [-> | [-> | [-> | [-> | [-> | ->]]]]];
    (split; [reflexivity|]);
    (split; [intros i j; by_index i j|]);
    (split; [reflexivity|]); (split; [reflexivity|]);
    (split; [vm_compute; reflexivity|]);
    eexists; (split; [reflexivity | vm_compute; reflexivity]).
Qed.

Lemma simple_convolution_kernel_symmetric_witness :
  Nat.odd (length Presets.gaussian_4_7x7) = true /\
  (forall i j : nat,
     entry Presets.gaussian_4_7x7 i j = entry Presets.gaussian_4_7x7 j i) /\
  rev Presets.gaussian_4_7x7 = Presets.gaussian_4_7x7 /\
  map (@rev float) Presets.gaussian_4_7x7 = Presets.gaussian_4_7x7 /\
  entries_between 0 1 Presets.gaussian_4_7x7 = true /\
  exists c : float,
    centre Presets.gaussian_4_7x7 = Some c /\
    entries_between 0 c Presets.gaussian_4_7x7 = true.
Proof.
  apply (simple_convolution_kernel_symmetric 5). reflexivity.
Defined.

(** ** More on the runs *)

Section MoreSepFacts.
Context {N : Numerics} {L : SepLibrary}.
Local Open Scope float_scope.

(** The calls of the background estimator, whatever its outcome. *)
Lemma sep_background_calls (img : loc) (mask : option matrix)
    (bw bh fw fh : option float) (subtract : bool) (bkgsize_min : float)
    (kw : gmap string pyobj) (s s1 : state) (r : result pyval) :
  sep_background img mask bw bh fw fh subtract bkgsize_min kw s = (r, s1) ->
  match r with
  | Raise e =>
      s1 = s \/
      exists c, call_kind c = 0%nat /\ s1 = State (heap s) (calls s ++ [c])
  | Ok v =>
      exists (b : background) (a : matrix),
        heap s !! img = Some a /\
        v = bkg_value subtract b img /\
        let '(bw, bh, fw, fh) := tile_sizes a bw bh fw fh bkgsize_min in
        sep_Background a (astype_bool <$> mask) bw bh fw fh kw = Returns b /\
        calls s1 = calls s ++
                   CallBackground a (astype_bool <$> mask) bw bh fw fh kw
                   :: (if subtract then [CallSubfrom b img] else [])
  end.
Proof.
  destruct (heap s !! img) as [a|] eqn:Ha.
  - rewrite (sep_background_run _ _ _ _ _ _ _ _ _ _ a Ha).
    destruct (tile_sizes _ _ _ _ _ _) as [[[bw' bh'] fw'] fh'] eqn:Ht. cbv zeta.
    destruct (sep_Background _ _ _ _ _ _ _) as [b|msg] eqn:Hb.
    + destruct subtract; intros [= <- <-]; exists b, a; rewrite Ht;
        simpl; rewrite <- ?app_assoc; auto.
    + intros [= <- <-]. right. now eexists.
  - rewrite sep_background_dangling by assumption. intros [= <- <-]. now left.
Qed.

(** X4: sizes the caller gives are handed to [sep.Background] as they are,
    below [bkgsize_min] or not, and a filter size that is not given is half
    the tile size that is. *)
Theorem sep_background_explicit_sizes (img : loc) (mask : option matrix)
    (bw bh : float) (fw fh : option float) (subtract : bool)
    (bkgsize_min : float) (kw : gmap string pyobj) (s : state) (a : matrix) :
  heap s !! img = Some a ->
  calls (snd (sep_background img mask (Some bw) (Some bh) fw fh subtract
                bkgsize_min kw s)) !! length (calls s)
  = Some (CallBackground a (astype_bool <$> mask) bw bh
            (default (bw / 2) fw) (default (bh / 2) fh) kw).
Proof.
  intros Ha. rewrite (sep_background_run _ _ _ _ _ _ _ _ _ _ a Ha).
  unfold tile_sizes. cbv zeta.
  destruct fw, fh; simpl;
    (destruct (sep_Background _ _ _ _ _ _ _) as [b|msg]; [destruct subtract|]);
    simpl; rewrite <- ?app_assoc; now apply list_lookup_middle.
Qed.

(** X12: the image [sep_background] returns after a subtraction is the
    caller's own array: a further estimate on the same reference is made
    on the subtracted pixels. *)
Theorem sep_background_twice (img : loc) (mask mask' : option matrix)
    (bw bh fw fh bw' bh' fw' fh' : option float) (subtract' : bool)
    (bkgsize_min bkgsize_min' : float) (kw kw' : gmap string pyobj)
    (s s1 : state) (v : pyval) :
  sep_background img mask bw bh fw fh true bkgsize_min kw s = (Ok v, s1) ->
  exists (b : background) (a : matrix),
    heap s !! img = Some a /\
    v = PyTuple [PyBackground b; PyImage img] /\
    let '(bw2, bh2, fw2, fh2) :=
      tile_sizes (subfrom b a) bw' bh' fw' fh' bkgsize_min' in
    calls (snd (sep_background img mask' bw' bh' fw' fh' subtract'
                  bkgsize_min' kw' s1)) !! length (calls s1)
    = Some (CallBackground (subfrom b a) (astype_bool <$> mask')
              bw2 bh2 fw2 fh2 kw').
Proof.
  intros H.
  pose proof (sep_background_outcome _ _ _ _ _ _ _ _ _ _ _ _ H)
    as (b & a & Ha & -> & _ & Ha1).
  exists b, a. split; [exact Ha|]. split; [reflexivity|].
  rewrite (sep_background_run _ _ _ _ _ _ _ _ _ _ _ Ha1).
  destruct (tile_sizes _ _ _ _ _ _) as [[[bw2 bh2] fw2] fh2]. cbv zeta.
  destruct (sep_Background _ _ _ _ _ _ _) as [b2|msg]; [destruct subtract'|];
    simpl; rewrite <- ?app_assoc; now apply list_lookup_middle.
Qed.

(** The call of [sep_background] the detector makes, with its calls. *)
Lemma call_sep_background_calls (img : loc) (subtract : bool)
    (bkg_kwargs : option bkg_kwargs_t) (s s1 : state) (r : result pyval) :
  call_sep_background img subtract bkg_kwargs s = (r, s1) ->
  match r with
  | Raise e =>
      s1 = s \/
      exists c, call_kind c = 0%nat /\ s1 = State (heap s) (calls s ++ [c])
  | Ok v =>
      exists (b : background) (a : matrix) (mask : option (list (list bool)))
             (bw bh fw fh : float) (kw : gmap string pyobj),
        heap s !! img = Some a /\
        v = bkg_value subtract b img /\
        sep_Background a mask bw bh fw fh kw = Returns b /\
        calls s1 = calls s ++
                   CallBackground a mask bw bh fw fh kw
                   :: (if subtract then [CallSubfrom b img] else [])
  end.
Proof.
  assert (Hsb : forall mask bw bh fw fh m kw,
             sep_background img mask bw bh fw fh subtract m kw s = (r, s1) ->
             match r with
             | Raise e =>
                 s1 = s \/
                 exists c, call_kind c = 0%nat /\
                           s1 = State (heap s) (calls s ++ [c])
             | Ok v =>
                 exists (b : background) (a : matrix)
                        (mask : option (list (list bool)))
                        (bw bh fw fh : float) (kw : gmap string pyobj),
                   heap s !! img = Some a /\
                   v = bkg_value subtract b img /\
                   sep_Background a mask bw bh fw fh kw = Returns b /\
                   calls s1 = calls s ++
                              CallBackground a mask bw bh fw fh kw
                              :: (if subtract then [CallSubfrom b img] else [])
             end).
  { intros mask bw bh fw fh m kw H.
    pose proof (sep_background_calls _ _ _ _ _ _ _ _ _ _ _ _ H) as Hc.
    destruct r as [v|e]; [|exact Hc].
    destruct Hc as (b & a & Ha & Hv & Hc).
    destruct (tile_sizes _ _ _ _ _ _) as [[[bw' bh'] fw'] fh'].
    destruct Hc as [Hb Hc]. now exists b, a, (astype_bool <$> mask), bw', bh', fw', fh', kw. }
  unfold call_sep_background.
  destruct bkg_kwargs as [kw|]; [destruct (argument_clash kw)|]; try apply Hsb.
  intros [= <- <-]. now left.
Qed.

Lemma preset_raises_range (k : Z) (e : exn) :
  simple_convolution_kernel k = Raise e -> (k < 1 \/ 6 < k)%Z.
Proof.
  unfold simple_convolution_kernel.
  repeat match goal with
         | |- context [Z.eqb ?a ?b] => destruct (Z.eqb_spec a b)
         end; try discriminate.
  intros _. lia.
Qed.

(** X6: the module's own exceptions are raised before anything is done:
    when [sep_detection] raises one, no call has been made and the store is
    as it was, and the exception is the wrong-choice one, for a kernel that
    is no integer and no sequence, or the more-options one, for an integer
    outside 1..6. *)
Theorem sep_detection_own_errors (img : loc) (threshold : float)
    (kernel : kernel_arg) (err : option matrix)
    (use_sig subtract_bkg return_bkg return_seg : bool)
    (bkg_kwargs : option bkg_kwargs_t) (det_kwargs : gmap string pyobj)
    (s : state) (msg : string) :
  fst (sep_detection img threshold kernel err use_sig subtract_bkg return_bkg
         return_seg bkg_kwargs det_kwargs s) = Raise (Exception msg) ->
  snd (sep_detection img threshold kernel err use_sig subtract_bkg return_bkg
         return_seg bkg_kwargs det_kwargs s) = s /\
  ((msg = wrong_choice_msg /\
    exists v : scalar, kernel = KScalar v /\ as_int v = None) \/
   (msg = more_options_msg /\
    exists (v : scalar) (k : Z),
      kernel = KScalar v /\ as_int v = Some k /\ (k < 1 \/ 6 < k)%Z)).
Proof.
  intros H.
  destruct (resolve_kernel kernel) as [fk|e] eqn:Hk.
  - exfalso.
    destruct (call_sep_background img subtract_bkg bkg_kwargs s)
      as [r s1] eqn:Hb.
    pose proof (call_sep_background_run _ _ _ _ _ _ Hb) as Hr.
    destruct r as [v0|e].
    + destruct Hr as (b & a & _ & -> & _ & Ha).
      destruct (keyword_clash (if use_sig then ErrMap err else VarMap err)
                det_kwargs) eqn:Hcl.
      { rewrite (sep_detection_clash _ _ _ _ _ _ _ _ _ _ _ _ _ _ Hk Hb Hcl) in H.
        discriminate. }
      rewrite (sep_detection_run _ _ _ _ _ _ _ _ _ _ _ _ _ _ _ Hk Hb Ha Hcl)
        in H.
      cbv zeta in H. now destruct (sep_extract _ _ _ _ _ _).
    + rewrite (sep_detection_background_error _ _ _ _ _ _ _ _ _ _ _ _ _ _ Hk Hb)
        in H.
      simpl in H. injection H as ->. destruct Hr as [Hf _]. now eapply Hf.
  - rewrite (sep_detection_kernel_error _ _ _ _ _ _ _ _ _ _ _ _ Hk) in H |- *.
    simpl in H. injection H as ->. split; [reflexivity|].
    destruct (resolve_kernel_wrong_choice _ _ Hk)
      as [[-> Hv] | [-> (v & k & -> & Hv)]]; [now left|].
    right. split; [reflexivity|]. exists v, k. repeat split; auto.
    simpl in Hk. rewrite Hv in Hk. exact (preset_raises_range _ _ Hk).
Qed.

(** X9: a [subtract] entry in [bkg_kwargs] clashes with the keyword the
    detector passes itself: the call fails with a [TypeError] before the
    extraction library is reached. *)
Theorem sep_detection_subtract_clash (img : loc) (threshold : float)
    (kernel : kernel_arg) (err : option matrix)
    (use_sig subtract_bkg return_bkg return_seg : bool)
    (kw : bkg_kwargs_t) (det_kwargs : gmap string pyobj)
    (s : state) (fk : matrix) (b : bool) :
  resolve_kernel kernel = Ok fk ->
  kw_subtract kw = Some b ->
  sep_detection img threshold kernel err use_sig subtract_bkg return_bkg
    return_seg (Some kw) det_kwargs s = (Raise TypeError, s).
Proof.
  intros Hk Hs.
  apply (sep_detection_background_error _ _ _ _ _ _ _ _ _ _ _ _ fk _ Hk).
  unfold call_sep_background, argument_clash. now rewrite Hs.
Qed.

(** X10: a sequence [kernel] with fewer than two entries fails with an
    [IndexError] before anything is done, and entries after the second are
    not looked at. *)
Theorem sep_detection_sequence_length (img : loc) (threshold : float)
    (err : option matrix)
    (use_sig subtract_bkg return_bkg return_seg : bool)
    (bkg_kwargs : option bkg_kwargs_t) (det_kwargs : gmap string pyobj)
    (s : state) :
  let run k := sep_detection img threshold k err use_sig subtract_bkg
                 return_bkg return_seg bkg_kwargs det_kwargs s in
  (forall l : list scalar, (length l < 2)%nat ->
     run (KList l) = (Raise IndexError, s) /\
     run (KTuple l) = (Raise IndexError, s) /\
     run (KArray l) = (Raise IndexError, s)) /\
  (forall (size sig : scalar) (rest : list scalar),
     run (KList (size :: sig :: rest)) = run (KList [size; sig]) /\
     run (KTuple (size :: sig :: rest)) = run (KTuple [size; sig]) /\
     run (KArray (size :: sig :: rest)) = run (KArray [size; sig])).
Proof.
  cbv zeta. split.
  - intros l Hl.
    assert (Hi : (k0 ← index l 0; k1 ← index l 1;
                  get_gaussian_kernel k0 k1) = Raise IndexError).
    { destruct l as [|x [|y l]]; simpl in *; try reflexivity. lia. }
    repeat split; apply sep_detection_kernel_error; exact Hi.
  - intros size sig rest. repeat split; reflexivity.
Qed.

(** X5: nothing is rolled back: when the extraction the detector calls
    under [subtract_bkg] fails, the exception of the library comes out of
    [sep_detection], and the caller's image stays as the subtraction left
    it: these are the pixels the extraction was called on. *)
Theorem sep_detection_no_rollback (img : loc) (threshold : float)
    (kernel : kernel_arg) (err : option matrix)
    (use_sig return_bkg return_seg : bool)
    (bkg_kwargs : option bkg_kwargs_t) (det_kwargs : gmap string pyobj)
    (s : state) (a1 : matrix) (thresh : float) (noise : noise_arg)
    (fk : matrix) (sg : bool) (kw : gmap string pyobj) (msg : string) :
  let run := sep_detection img threshold kernel err use_sig true return_bkg
               return_seg bkg_kwargs det_kwargs s in
  CallExtract a1 thresh noise fk sg kw
    ∈ drop (length (calls s)) (calls (snd run)) ->
  sep_extract a1 thresh noise fk sg kw = Fails msg ->
  fst run = Raise (ExternalError msg) /\
  exists (b : background) (a : matrix),
    heap s !! img = Some a /\
    a1 = subfrom b a /\
    heap (snd run) = <[img := subfrom b a]> (heap s).
Proof.
  cbv zeta. intros Hin Hx.
  assert (Hno : forall pre : list call,
             Forall (fun c => call_kind c <> 2%nat) pre ->
             CallExtract a1 thresh noise fk sg kw ∈ pre -> False).
  { intros pre Hpre Hc. rewrite Forall_forall in Hpre.
    now apply (Hpre _ Hc). }
  destruct (resolve_kernel kernel) as [fk0|e] eqn:Hk.
  2: { rewrite (sep_detection_kernel_error _ _ _ _ _ _ _ _ _ _ _ _ Hk) in Hin.
       simpl in Hin. rewrite drop_all in Hin. inversion Hin. }
  destruct (call_sep_background img true bkg_kwargs s) as [r s1] eqn:Hb.
  pose proof (call_sep_background_run _ _ _ _ _ _ Hb) as Hr.
  destruct (call_sep_background_new _ _ _ _ _ _ Hb) as (pre & Hpre & Hnone).
  destruct r as [v0|e].
  - destruct Hr as (b & a & Ha & -> & Hh & Ha1).
    destruct (keyword_clash (if use_sig then ErrMap err else VarMap err)
                det_kwargs) eqn:Hcl.
    { rewrite (sep_detection_clash _ _ _ _ _ _ _ _ _ _ _ _ _ _ Hk Hb Hcl) in Hin.
      simpl in Hin. rewrite Hpre, drop_app_length in Hin.
      destruct (Hno pre Hnone Hin). }
    rewrite (sep_detection_run _ _ _ _ _ _ _ _ _ _ _ _ _ _ _ Hk Hb Ha1 Hcl)
      in Hin |- *.
    cbv zeta in Hin |- *.
    assert (Hs : forall (x : result pyval) (c : call),
               calls (snd (x, State (heap s1) (calls s1 ++ [c])))
               = calls s ++ pre ++ [c])
      by (intros; simpl; now rewrite Hpre, <- app_assoc).
    assert (Hlast : CallExtract a1 thresh noise fk sg kw
                    = CallExtract (subfrom b a)
                        (match err with
                         | None => threshold * globalrms b
                         | Some _ => threshold
                         end)
                        (if use_sig then ErrMap err else VarMap err)
                        fk0 return_seg det_kwargs).
    { destruct (sep_extract _ _ _ _ _ _);
        rewrite Hs, drop_app_length, elem_of_app, list_elem_of_singleton in Hin;
        destruct Hin as [Hin | Hin]; auto; destruct (Hno pre Hnone Hin). }
    injection Hlast as -> -> -> -> -> ->. rewrite Hx. simpl.
    split; [reflexivity|]. now exists b, a.
  - rewrite (sep_detection_background_error _ _ _ _ _ _ _ _ _ _ _ _ _ _ Hk Hb)
      in Hin.
    simpl in Hin. rewrite Hpre, drop_app_length in Hin.
    destruct (Hno pre Hnone Hin).
Qed.

(** The call of [sep_background] the detector makes, by its calls: none, or
    the one of [sep.Background], which fails or gives the model. *)
Lemma call_sep_background_trace (img : loc) (subtract : bool)
    (bkg_kwargs : option bkg_kwargs_t) (s s1 : state) (r : result pyval) :
  call_sep_background img subtract bkg_kwargs s = (r, s1) ->
  s1 = s \/
  exists (a : matrix) (mask : option (list (list bool))) (bw bh fw fh : float)
         (kw : gmap string pyobj),
    heap s !! img = Some a /\
    match sep_Background a mask bw bh fw fh kw with
    | Fails msg =>
        r = Raise (ExternalError msg) /\
        s1 = State (heap s)
               (calls s ++ [CallBackground a mask bw bh fw fh kw])
    | Returns b =>
        r = Ok (bkg_value subtract b img) /\
        calls s1 = calls s ++
                   CallBackground a mask bw bh fw fh kw
                   :: (if subtract then [CallSubfrom b img] else [])
    end.
Proof.
  assert (Hsb : forall mask bw bh fw fh m kw,
             sep_background img mask bw bh fw fh subtract m kw s = (r, s1) ->
             s1 = s \/
             exists (a : matrix) (mask : option (list (list bool)))
                    (bw bh fw fh : float) (kw : gmap string pyobj),
               heap s !! img = Some a /\
               match sep_Background a mask bw bh fw fh kw with
               | Fails msg =>
                   r = Raise (ExternalError msg) /\
                   s1 = State (heap s)
                          (calls s ++ [CallBackground a mask bw bh fw fh kw])
               | Returns b =>
                   r = Ok (bkg_value subtract b img) /\
                   calls s1 = calls s ++
                              CallBackground a mask bw bh fw fh kw
                              :: (if subtract then [CallSubfrom b img] else [])
               end).
  { intros mask bw bh fw fh m kw.
    destruct (heap s !! img) as [a|] eqn:Ha.
    - rewrite (sep_background_run _ _ _ _ _ _ _ _ _ _ a Ha).
      destruct (tile_sizes _ _ _ _ _ _) as [[[bw' bh'] fw'] fh']. cbv zeta.
      intros H. right.
      exists a, (astype_bool <$> mask), bw', bh', fw', fh', kw.
      split; [reflexivity|].
      destruct (sep_Background _ _ _ _ _ _ _) as [b|msg];
        [destruct subtract|]; injection H as <- <-; simpl;
        rewrite <- ?app_assoc; auto.
    - rewrite sep_background_dangling by assumption.
      intros [= <- <-]. now left. }
  unfold call_sep_background.
  destruct bkg_kwargs as [kw|]; [destruct (argument_clash kw)|]; try apply Hsb.
  intros [= <- <-]. now left.
Qed.

(** X11: when the call of [sep.Background] the detector makes fails, its
    exception comes out of [sep_detection]: this one call has been made,
    the extraction is not attempted and the store is as it was. *)
Theorem sep_detection_background_failure (img : loc) (threshold : float)
    (kernel : kernel_arg) (err : option matrix)
    (use_sig subtract_bkg return_bkg return_seg : bool)
    (bkg_kwargs : option bkg_kwargs_t) (det_kwargs : gmap string pyobj)
    (s : state) (a : matrix) (mask : option (list (list bool)))
    (bw bh fw fh : float) (kw : gmap string pyobj) (msg : string) :
  let run := sep_detection img threshold kernel err use_sig subtract_bkg
               return_bkg return_seg bkg_kwargs det_kwargs s in
  calls (snd run) !! length (calls s)
    = Some (CallBackground a mask bw bh fw fh kw) ->
  sep_Background a mask bw bh fw fh kw = Fails msg ->
  run = (Raise (ExternalError msg),
         State (heap s) (calls s ++ [CallBackground a mask bw bh fw fh kw])).
Proof.
  cbv zeta. intros Hc HB.
  assert (Hnil : calls s !! length (calls s)
                 = Some (CallBackground a mask bw bh fw fh kw) -> False).
  { rewrite lookup_ge_None_2 by lia. discriminate. }
  destruct (resolve_kernel kernel) as [fk|e] eqn:Hk.
  2: { rewrite (sep_detection_kernel_error _ _ _ _ _ _ _ _ _ _ _ _ Hk) in Hc.
       destruct (Hnil Hc). }
  destruct (call_sep_background img subtract_bkg bkg_kwargs s) as [r s1] eqn:Hb.
  pose proof (call_sep_background_run _ _ _ _ _ _ Hb) as Hr.
  destruct (call_sep_background_trace _ _ _ _ _ _ Hb)
    as [-> | (a' & mask' & bw' & bh' & fw' & fh' & kw' & Ha' & Ht)].
  - (* no call was made: the run stops here or goes on without a background *)
    destruct r as [v0|e].
    + destruct Hr as (b & a0 & _ & -> & _ & Ha1).
      destruct (keyword_clash (if use_sig then ErrMap err else VarMap err)
                  det_kwargs) eqn:Hcl.
      * rewrite (sep_detection_clash _ _ _ _ _ _ _ _ _ _ _ _ _ _ Hk Hb Hcl) in Hc.
        destruct (Hnil Hc).
      * rewrite (sep_detection_run _ _ _ _ _ _ _ _ _ _ _ _ _ _ _ Hk Hb Ha1 Hcl)
          in Hc.
        cbv zeta in Hc. exfalso.
        destruct (sep_extract _ _ _ _ _ _); simpl in Hc;
          rewrite list_lookup_middle in Hc by reflexivity; discriminate.
    + rewrite (sep_detection_background_error _ _ _ _ _ _ _ _ _ _ _ _ _ _ Hk Hb)
        in Hc.
      destruct (Hnil Hc).
  - assert (Hfirst : forall (l : list call) (s2 : state),
               calls s2 = (calls s ++ CallBackground a' mask' bw' bh' fw' fh' kw'
                           :: l) ->
               calls s2 !! length (calls s)
               = Some (CallBackground a mask bw bh fw fh kw) ->
               CallBackground a' mask' bw' bh' fw' fh' kw'
               = CallBackground a mask bw bh fw fh kw).
    { intros l s2 -> H. rewrite list_lookup_middle in H by reflexivity.
      congruence. }
    destruct (sep_Background a' mask' bw' bh' fw' fh' kw') as [b|msg'] eqn:HB'.
    + exfalso. destruct Ht as [-> Hs1].
      destruct Hr as (b0 & a0 & _ & _ & _ & Ha1).
      destruct (keyword_clash (if use_sig then ErrMap err else VarMap err)
                  det_kwargs) eqn:Hcl.
      * rewrite (sep_detection_clash _ _ _ _ _ _ _ _ _ _ _ _ _ _ Hk Hb Hcl) in Hc.
        pose proof (Hfirst _ _ Hs1 Hc) as Heq.
        injection Heq as -> -> -> -> -> -> ->. congruence.
      * rewrite (sep_detection_run _ _ _ _ _ _ _ _ _ _ _ _ _ _ _ Hk Hb Ha1 Hcl)
          in Hc.
        cbv zeta in Hc.
        assert (Heq : CallBackground a' mask' bw' bh' fw' fh' kw'
                      = CallBackground a mask bw bh fw fh kw).
        { destruct (sep_extract _ _ _ _ _ _); simpl in Hc;
            rewrite Hs1, <- app_assoc in Hc; simpl in Hc;
            (rewrite list_lookup_middle in Hc by reflexivity);
            congruence. }
        injection Heq as -> -> -> -> -> -> ->. congruence.
    + destruct Ht as [-> ->].
      rewrite (sep_detection_background_error _ _ _ _ _ _ _ _ _ _ _ _ _ _ Hk Hb)
        in Hc |- *.
      simpl in Hc. rewrite list_lookup_middle in Hc by reflexivity.
      injection Hc as -> -> -> -> -> -> ->. congruence.
Qed.

(** X7: a call of [sep_detection] that returns has called the library in
    this order and no more: [sep.Background] on the image as given,
    [subfrom] on it when [subtract_bkg] is set, and [sep.extract] with the
    resolved kernel, on the subtracted pixels when [subtract_bkg] is set
    and on the pixels as given when it is not; [err] goes in as [err=]
    under [use_sig] and as [var=] otherwise. *)
Theorem sep_detection_trace (img : loc) (threshold : float)
    (kernel : kernel_arg) (err : option matrix)
    (use_sig subtract_bkg return_bkg return_seg : bool)
    (bkg_kwargs : option bkg_kwargs_t) (det_kwargs : gmap string pyobj)
    (s : state) (v : pyval) :
  fst (sep_detection img threshold kernel err use_sig subtract_bkg return_bkg
         return_seg bkg_kwargs det_kwargs s) = Ok v ->
  exists (fk : matrix) (b : background) (a : matrix)
         (mask : option (list (list bool))) (bw bh fw fh : float)
         (kw : gmap string pyobj),
    resolve_kernel kernel = Ok fk /\
    heap s !! img = Some a /\
    sep_Background a mask bw bh fw fh kw = Returns b /\
    calls (snd (sep_detection img threshold kernel err use_sig subtract_bkg
                  return_bkg return_seg bkg_kwargs det_kwargs s))
    = calls s ++
      CallBackground a mask bw bh fw fh kw
      :: (if subtract_bkg then [CallSubfrom b img] else [])
      ++ [CallExtract (if subtract_bkg then subfrom b a else a)
            (match err with
             | None => threshold * globalrms b
             | Some _ => threshold
             end)
            (if use_sig then ErrMap err else VarMap err)
            fk return_seg det_kwargs].
Proof.
  intros H.
  destruct (resolve_kernel kernel) as [fk|e] eqn:Hk.
  2: { rewrite (sep_detection_kernel_error _ _ _ _ _ _ _ _ _ _ _ _ Hk) in H.
       discriminate. }
  destruct (call_sep_background img subtract_bkg bkg_kwargs s) as [r s1] eqn:Hb.
  pose proof (call_sep_background_run _ _ _ _ _ _ Hb) as Hr.
  pose proof (call_sep_background_calls _ _ _ _ _ _ Hb) as Hc.
  destruct r as [v0|e].
  - destruct Hr as (b & a & Ha & -> & _ & Ha1).
    destruct Hc as (b' & a' & mask & bw & bh & fw & fh & kw & Ha' & Hv & HB & Hc).
    assert (a' = a) as -> by congruence.
    assert (b' = b) as -> by (destruct subtract_bkg; simpl in Hv; congruence).
    exists fk, b, a, mask, bw, bh, fw, fh, kw.
    split; [reflexivity|]. split; [exact Ha|]. split; [exact HB|].
    destruct (keyword_clash (if use_sig then ErrMap err else VarMap err)
                det_kwargs) eqn:Hcl.
    { rewrite (sep_detection_clash _ _ _ _ _ _ _ _ _ _ _ _ _ _ Hk Hb Hcl) in H.
      discriminate. }
    rewrite (sep_detection_run _ _ _ _ _ _ _ _ _ _ _ _ _ _ _ Hk Hb Ha1 Hcl).
    cbv zeta.
    assert (Hs : forall (x : result pyval) (c : call),
               calls (snd (x, State (heap s1) (calls s1 ++ [c])))
               = calls s1 ++ [c]) by reflexivity.
    destruct (sep_extract _ _ _ _ _ _); rewrite Hs, Hc, <- app_assoc;
      reflexivity.
  - rewrite (sep_detection_background_error _ _ _ _ _ _ _ _ _ _ _ _ _ _ Hk Hb) in H.
    discriminate.
Qed.

(** X8: whatever happens, the calls of one run of [sep_detection] come in
    the order background, subtraction, extraction, each at most once and
    the subtraction only under [subtract_bkg]; a run that returns has made
    them all. *)
Theorem sep_detection_call_order (img : loc) (threshold : float)
    (kernel : kernel_arg) (err : option matrix)
    (use_sig subtract_bkg return_bkg return_seg : bool)
    (bkg_kwargs : option bkg_kwargs_t) (det_kwargs : gmap string pyobj)
    (s : state) :
  let run := sep_detection img threshold kernel err use_sig subtract_bkg
               return_bkg return_seg bkg_kwargs det_kwargs s in
  exists new : list call,
    calls (snd run) = calls s ++ new /\
    map call_kind new `prefix_of` full_trace subtract_bkg /\
    (forall v : pyval, fst run = Ok v ->
                       map call_kind new = full_trace subtract_bkg).
Proof.
  cbv zeta.
  destruct (resolve_kernel kernel) as [fk|e] eqn:Hk.
  2: { rewrite (sep_detection_kernel_error _ _ _ _ _ _ _ _ _ _ _ _ Hk).
       exists []. simpl. rewrite app_nil_r.
       split; [reflexivity|]. split; [apply prefix_nil | discriminate]. }
  destruct (call_sep_background img subtract_bkg bkg_kwargs s) as [r s1] eqn:Hb.
  pose proof (call_sep_background_run _ _ _ _ _ _ Hb) as Hr.
  pose proof (call_sep_background_calls _ _ _ _ _ _ Hb) as Hc.
  destruct r as [v0|e].
  - destruct Hr as (b & a & Ha & -> & _ & Ha1).
    destruct Hc as (b' & a' & mask & bw & bh & fw & fh & kw & _ & _ & _ & Hc).
    destruct (keyword_clash (if use_sig then ErrMap err else VarMap err)
                det_kwargs) eqn:Hcl.
    { rewrite (sep_detection_clash _ _ _ _ _ _ _ _ _ _ _ _ _ _ Hk Hb Hcl).
      exists (CallBackground a' mask bw bh fw fh kw
              :: (if subtract_bkg then [CallSubfrom b' img] else [])).
      split; [exact Hc|]. split; [|discriminate].
      destruct subtract_bkg; now eexists. }
    rewrite (sep_detection_run _ _ _ _ _ _ _ _ _ _ _ _ _ _ _ Hk Hb Ha1 Hcl).
    cbv zeta.
    match goal with
    | |- context [CallExtract ?x ?t ?n ?f ?g ?k] =>
        exists (CallBackground a' mask bw bh fw fh kw
                :: (if subtract_bkg then [CallSubfrom b' img] else [])
                ++ [CallExtract x t n f g k])
    end.
    assert (Hs : forall (x : result pyval) (c : call),
               calls (snd (x, State (heap s1) (calls s1 ++ [c])))
               = calls s1 ++ [c]) by reflexivity.
    split; [destruct (sep_extract _ _ _ _ _ _); rewrite Hs, Hc, <- app_assoc;
            reflexivity|].
    destruct subtract_bkg; simpl; split; auto.
  - rewrite (sep_detection_background_error _ _ _ _ _ _ _ _ _ _ _ _ _ _ Hk Hb).
    simpl. destruct Hc as [-> | (c & Hc & ->)].
    + exists []. rewrite app_nil_r.
      split; [reflexivity|]. split; [apply prefix_nil | discriminate].
    + exists [c]. simpl. rewrite Hc.
      split; [reflexivity|]. split; [|discriminate].
      destruct subtract_bkg; now eexists.
Qed.

(** X13: [return_bkg] changes nothing but the value handed back: without
    it the detector makes the same calls and leaves the same store, fails
    with the same exception, and where it would have returned its tuple it
    returns [None]. *)
Theorem sep_detection_return_bkg_discards (img : loc) (threshold : float)
    (kernel : kernel_arg) (err : option matrix)
    (use_sig subtract_bkg return_seg : bool)
    (bkg_kwargs : option bkg_kwargs_t) (det_kwargs : gmap string pyobj)
    (s : state) :
  let run b := sep_detection img threshold kernel err use_sig subtract_bkg b
                 return_seg bkg_kwargs det_kwargs s in
  snd (run false) = snd (run true) /\
  fst (run false) = match fst (run true) with
                    | Ok _ => Ok PyNone
                    | Raise e => Raise e
                    end.
Proof.
  cbv zeta.
  destruct (resolve_kernel kernel) as [fk|e] eqn:Hk.
  2: { rewrite !(sep_detection_kernel_error _ _ _ _ _ _ _ _ _ _ _ _ Hk).
       now split. }
  destruct (call_sep_background img subtract_bkg bkg_kwargs s) as [r s1] eqn:Hb.
  pose proof (call_sep_background_run _ _ _ _ _ _ Hb) as Hr.
  destruct r as [v0|e].
  - destruct Hr as (b & a & Ha & -> & _ & Ha1).
    destruct (keyword_clash (if use_sig then ErrMap err else VarMap err)
                det_kwargs) eqn:Hcl.
    { rewrite !(sep_detection_clash _ _ _ _ _ _ _ _ _ _ _ _ _ _ Hk Hb Hcl).
      now split. }
    rewrite !(sep_detection_run _ _ _ _ _ _ _ _ _ _ _ _ _ _ _ Hk Hb Ha1 Hcl).
    cbv zeta. now destruct (sep_extract _ _ _ _ _ _).
  - rewrite !(sep_detection_background_error _ _ _ _ _ _ _ _ _ _ _ _ _ _ Hk Hb).
    now split.
Qed.

End MoreSepFacts.

(** ** The further theorems at work on the small library *)

(** A tile of 4 pixels under a [bkgsize_min] of 10 stays 4. *)
Lemma sep_background_explicit_sizes_witness :
  calls (snd (@sep_background toy_sep 1%positive None (Some 4%float)
                (Some 6%float) None (Some 1%float) false 10 ∅ toy_state))
    !! length (calls toy_state)
  = Some (CallBackground toy_image (astype_bool <$> None) 4 6
            (default (4 / 2) None) (default (6 / 2) (Some 1)) ∅)%float.
Proof.
  apply (@sep_background_explicit_sizes toy_sep 1%positive None 4 6 None
           (Some 1%float) false 10 ∅ toy_state toy_image).
  reflexivity.
Defined.

Lemma sep_background_twice_witness :
  exists (b : @background toy_sep) (a : matrix),
    heap toy_state !! 1%positive = Some a /\
    PyTuple [@PyBackground toy_sep 100%float; PyImage 1%positive]
    = PyTuple [PyBackground b; PyImage 1%positive] /\
    let '(bw2, bh2, fw2, fh2) :=
      tile_sizes (subfrom b a) None None None None 10 in
    calls (snd (@sep_background toy_sep 1%positive None None None None None
                  false 10 ∅
                  (snd (@sep_background toy_sep 1%positive None None None None
                          None true 10 ∅ toy_state))))
      !! length (calls (snd (@sep_background toy_sep 1%positive None None None
                               None None true 10 ∅ toy_state)))
    = Some (CallBackground (subfrom b a) (astype_bool <$> None)
              bw2 bh2 fw2 fh2 ∅).
Proof.
  apply (@sep_background_twice toy_sep 1%positive None None None None None None
           None None None None false 10 10 ∅ ∅ toy_state).
  vm_compute. reflexivity.
Defined.

(** Preset 7 is refused before the library is called. *)
Lemma sep_detection_own_errors_witness :
  let run := @sep_detection toy_numerics toy_sep 1%positive 5
               (KScalar (SInt 7)) None true true true true None ∅ toy_state in
  snd run = toy_state /\
  ((more_options_msg = wrong_choice_msg /\
    exists v : scalar, KScalar (SInt 7) = KScalar v /\ as_int v = None) \/
   (more_options_msg = more_options_msg /\
    exists (v : scalar) (k : Z),
      KScalar (SInt 7) = KScalar v /\ as_int v = Some k /\ (k < 1 \/ 6 < k))).
Proof.
  apply (@sep_detection_own_errors toy_numerics toy_sep 1%positive 5
           (KScalar (SInt 7)) None true true true true None ∅ toy_state
           more_options_msg).
  reflexivity.
Defined.

Lemma sep_detection_subtract_clash_witness :
  @sep_detection toy_numerics toy_sep 1%positive 5 (KScalar (SInt 4)) None
    true true true true
    (Some (BkgKwargs None None None None None (Some true) None ∅)) ∅ toy_state
  = (Raise TypeError, toy_state).
Proof.
  apply (@sep_detection_subtract_clash toy_numerics toy_sep 1%positive 5
           (KScalar (SInt 4)) None true true true true
           (BkgKwargs None None None None None (Some true) None ∅) ∅ toy_state
           Presets.gaussian_3_5x5 true); reflexivity.
Defined.

(** The extraction fails on an image whose background of 100 was taken
    off: the pixels stay at 0 and 500. *)
Lemma sep_detection_no_rollback_witness :
  let run := @sep_detection toy_numerics failing_sep 1%positive 5
               (KScalar (SInt 4)) None true true true true None ∅
               failing_state in
  fst run = Raise (ExternalError "internal pixel buffer full") /\
  exists (b : @background failing_sep) (a : matrix),
    heap failing_state !! 1%positive = Some a /\
    @subfrom failing_sep 100%float toy_image = subfrom b a /\
    heap (snd run) = <[1%positive := subfrom b a]> (heap failing_state).
Proof.
  apply (@sep_detection_no_rollback toy_numerics failing_sep 1%positive 5
           (KScalar (SInt 4)) None true true true None ∅ failing_state
           (@subfrom failing_sep 100%float toy_image) 10 (ErrMap None)
           Presets.gaussian_3_5x5 true ∅ "internal pixel buffer full").
  - apply (list_elem_of_lookup_2 _ 2%nat). vm_compute. reflexivity.
  - reflexivity.
Defined.

Lemma sep_detection_trace_witness :
  let run := @sep_detection toy_numerics toy_sep 1%positive 5
               (KScalar (SInt 4)) None true true true false None ∅ toy_state in
  exists (fk : matrix) (b : @background toy_sep) (a : matrix)
         (mask : option (list (list bool))) (bw bh fw fh : float)
         (kw : gmap string (@pyobj toy_sep)),
    @resolve_kernel toy_numerics (KScalar (SInt 4)) = Ok fk /\
    heap toy_state !! 1%positive = Some a /\
    sep_Background a mask bw bh fw fh kw = Returns b /\
    calls (snd run)
    = calls toy_state ++
      CallBackground a mask bw bh fw fh kw
      :: [CallSubfrom b 1%positive]
      ++ [CallExtract (subfrom b a) (5 * globalrms b) (ErrMap None) fk
            false ∅].
Proof.
  apply (@sep_detection_trace toy_numerics toy_sep 1%positive 5
           (KScalar (SInt 4)) None true true true false None ∅ toy_state
           (PyTuple [@PyObjects toy_sep 1%nat; @PyBackground toy_sep 100%float])).
  vm_compute. reflexivity.
Defined.

(** The small library refuses an image without pixels. *)
Lemma sep_detection_background_failure_witness :
  @sep_detection toy_numerics toy_sep 1%positive 5 (KScalar (SInt 4)) None
    true true true true None ∅ blank_state
  = (Raise (ExternalError "empty image"),
     State (heap blank_state)
       (calls blank_state ++ [CallBackground [] None 10 10 5 5 ∅])).
Proof.
  apply (@sep_detection_background_failure toy_numerics toy_sep 1%positive 5
           (KScalar (SInt 4)) None true true true true None ∅ blank_state
           [] None 10 10 5 5 ∅ "empty image").
  - vm_compute. reflexivity.
  - reflexivity.
Defined.
